(** * ConsoleBatch: the batch pipeline engine of Scan Tailor

    A shallow embedding of the two ConsoleBatch translation units
    ([ConsoleBatch_ubuntu_arm64.cpp], called the baseline below, and
    [ConsoleBatch_ubuntu_arm64_optimized.cpp], called the optimized one):
    the project-file constructor, [createCompositeTask] and [process] of
    each.  Stage factories, image loading and the stage computations are
    external collaborators; they are gathered in the record [Env]. *)

From Stdlib Require Import ZArith QArith Lia.
From stdpp Require Import base option list strings gmap.

Set Warnings "-register-all".
Open Scope Z_scope.

(** ** Data model *)

(** The six stages of the pipeline, in their fixed order. *)
Inductive Stage :=
  | FixOrientation | PageSplit | Deskew | SelectContent | PageLayout | Output.

#[global] Instance Stage_eq_dec : EqDecision Stage.
Proof. solve_decision. Defined.

Definition allStages : list Stage :=
  [FixOrientation; PageSplit; Deskew; SelectContent; PageLayout; Output].

(** Modelled from the spec: the index accessors of StageSequence
    (StageSequence.h is not part of the sources).  The stage order is fixed:
    orientation, split, deskew, content selection, layout, output; the
    optimized unit hard-codes the same positions as the literals 0..5. *)
Definition fixOrientationFilterIdx : Z := 0.
Definition pageSplitFilterIdx : Z := 1.
Definition deskewFilterIdx : Z := 2.
Definition selectContentFilterIdx : Z := 3.
Definition pageLayoutFilterIdx : Z := 4.
Definition outputFilterIdx : Z := 5.
Definition lastFilterIdx : Z := 5.

Definition stageIdx (s : Stage) : Z :=
  match s with
  | FixOrientation => fixOrientationFilterIdx
  | PageSplit => pageSplitFilterIdx
  | Deskew => deskewFilterIdx
  | SelectContent => selectContentFilterIdx
  | PageLayout => pageLayoutFilterIdx
  | Output => outputFilterIdx
  end.

Inductive SubPage := SINGLE_PAGE | LEFT_PAGE | RIGHT_PAGE.

#[global] Instance SubPage_eq_dec : EqDecision SubPage.
Proof. solve_decision. Defined.

(** A source image: file path and index within a multi-image file. *)
Record ImageId := mkImageId { filePath : string; imageIdx : nat }.

#[global] Instance ImageId_eq_dec : EqDecision ImageId.
Proof. solve_decision. Defined.

(** A logical page: a source image and a sub-page selector. *)
Record PageId := mkPageId { imageId : ImageId; subPage : SubPage }.

#[global] Instance PageId_eq_dec : EqDecision PageId.
Proof. solve_decision. Defined.

(** [PageInfo::id()]; the metadata a PageInfo carries besides is not read
    by the code modelled here. *)
Record PageInfo := mkPageInfo { page_id : PageId }.

#[global] Instance PageInfo_eq_dec : EqDecision PageInfo.
Proof. solve_decision. Defined.

Inductive PageView := IMAGE_VIEW | PAGE_VIEW.

(** ProjectPages, seen through [toPageSequence]: a snapshot per view. *)
Definition ProjectPages : Type := PageView → list PageInfo.

Definition toPageSequence (pages : ProjectPages) (view : PageView) : list PageInfo :=
  pages view.

(** A unit of work, as its factory was called: the stage, the page, the
    continuation (a null pointer is [None]), the batch flag and the debug
    flag ([None] where the factory takes no debug flag). *)
Inductive Task :=
  MkTask (stage : Stage) (page : PageId) (next : option Task)
         (batch : bool) (debug : option bool).

Definition taskStage (t : Task) : Stage := let 'MkTask s _ _ _ _ := t in s.

(** The stages of a chain, from its root along the continuations. *)
Fixpoint chainStages (t : Task) : list Stage :=
  match t with
  | MkTask s _ next _ _ =>
      s :: match next with Some t' => chainStages t' | None => [] end
  end.

(** The debug flags the factories of a chain received, root first. *)
Fixpoint chainDebugFlags (t : Task) : list (Stage * option bool) :=
  match t with
  | MkTask s _ next _ d =>
      (s, d) :: match next with Some t' => chainDebugFlags t' | None => [] end
  end.

(** The pages the units of work of a chain were created for. *)
Fixpoint chainPages (t : Task) : list PageId :=
  match t with
  | MkTask _ p next _ _ =>
      p :: match next with Some t' => chainPages t' | None => [] end
  end.

Inductive LoadKind := BATCH | LOAD_IMAGE.

(** [LoadFileTask]: the root of every composite task. *)
Record LoadFileTask := mkLoadFileTask {
  lf_kind : LoadKind;
  lf_page : PageInfo;
  lf_next : option Task
}.

(** The outcome of code that contains [assert]s: a value, or the failed
    assertion (which calls abort) with the stage whose task was checked.
    Assertions are taken as compiled in. *)
Inductive Checked (A : Type) :=
  | Pass (a : A)
  | AssertionFailed (s : Stage).
Arguments Pass {A} a.
Arguments AssertionFailed {A} s.

#[global] Instance Checked_ret : MRet Checked := @Pass.
#[global] Instance Checked_bind : MBind Checked := λ A B f m,
  match m with
  | Pass a => f a
  | AssertionFailed s => AssertionFailed s
  end.

(** [assert(task)] on the task a stage factory returned. *)
Definition asserted (s : Stage) (task : option Task) : Checked (option Task) :=
  match task with
  | Some _ => Pass task
  | None => AssertionFailed s
  end.

(** ** External collaborators *)

Inductive Exn :=
  | StdException (what : string)
  | UnknownException.

(** What a stage's computation does with its input. *)
Inductive StageOutcome (Data : Type) :=
  | Done (output : Data)
  | Failed (reason : string)
  | Raised (e : Exn).
Arguments Done {Data} output.
Arguments Failed {Data} reason.
Arguments Raised {Data} e.

(** Everything the engine calls but does not define: whether a stage's
    [Filter::createTask] returns a task, the image loader, the stage
    computations, the elapsed-time readings of the timer (indexed by the
    number of pages attempted so far) and the verbosity switch of the
    command line. *)
Record Env (Data : Type) := mkEnv {
  creates : Stage → PageId → bool;
  loadImage : ImageId → option Data;
  work : Stage → PageId → Data → StageOutcome Data;
  elapsed : nat → Z;
  isVerbose : bool
}.
Arguments creates {Data} _ _ _.
Arguments loadImage {Data} _ _.
Arguments work {Data} _ _ _ _.
Arguments elapsed {Data} _ _.
Arguments isVerbose {Data} _.

(** ** Execution of a chain *)

Inductive Event :=
  | Load (image : ImageId)
  | Begin (s : Stage) (p : PageId)
  | Finish (s : Stage) (p : PageId).

Inductive ChainResult (Data : Type) :=
  | ChainOk (output : Data)
  | LoadFailed (path : string)
  | StageFailed (s : Stage) (reason : string)
  | Threw (e : Exn)
  | NoRootTask.
Arguments ChainOk {Data} output.
Arguments LoadFailed {Data} path.
Arguments StageFailed {Data} s reason.
Arguments Threw {Data} e.
Arguments NoRootTask {Data}.

Definition isOk {Data} (r : ChainResult Data) : bool :=
  match r with ChainOk _ => true | _ => false end.

Section Execution.
Context {Data : Type} (env : Env Data).

(** [Filter::createTask] of stage [s]: the task records the arguments of
    the call; a factory that yields nothing returns a null pointer. *)
Definition createTask (s : Stage) (page : PageId) (next : option Task)
    (batch : bool) (debug : option bool) : option Task :=
  if creates env s page then Some (MkTask s page next batch debug) else None.

(** Modelled from the spec: [Task::process] of the stages (the stage
    sources are absent).  A unit of work runs its stage's computation; on
    success it hands the output to its continuation and runs it; on
    failure it stops the chain and reports the error tagged with the
    failing stage.  The output of the unit without a continuation is the
    result of the chain. *)
Fixpoint runTask (t : Task) (input : Data) : list Event * ChainResult Data :=
  match t with
  | MkTask s p next _ _ =>
      match work env s p input with
      | Done output =>
          match next with
          | None => ([Begin s p; Finish s p], ChainOk output)
          | Some t' =>
              let '(events, result) := runTask t' output in
              (Begin s p :: Finish s p :: events, result)
          end
      | Failed reason => ([Begin s p], StageFailed s reason)
      | Raised e => ([Begin s p], Threw e)
      end
  end.

(** Modelled from the spec: [LoadFileTask] (LoadFileTask.cpp is absent):
    it loads the page's source image and hands it to the root of the
    chain; an unreadable source is that page's failure. *)
Definition runLoadFileTask (task : LoadFileTask) : list Event * ChainResult Data :=
  let image := imageId (page_id (lf_page task)) in
  match loadImage env image with
  | None => ([Load image], LoadFailed (filePath image))
  | Some data =>
      match lf_next task with
      | None => ([Load image], NoRootTask)
      | Some root =>
          let '(events, result) := runTask root data in
          (Load image :: events, result)
      end
  end.

(** Follows the words of the spec (4.2, 4.3): the chain executes
    forward: the first stage runs first and hands its output to the next,
    until the last stage produces the final result; a failing stage
    stops the chain. *)
Fixpoint runStages (stages : list Stage) (p : PageId) (input : Data)
    : list Event * ChainResult Data :=
  match stages with
  | [] => ([], ChainOk input)
  | s :: rest =>
      match work env s p input with
      | Done output =>
          let '(events, result) := runStages rest p output in
          (Begin s p :: Finish s p :: events, result)
      | Failed reason => ([Begin s p], StageFailed s reason)
      | Raised e => ([Begin s p], Threw e)
      end
  end.

(** The forward execution of [stages] on the source image of [page]. *)
Definition runPage (stages : list Stage) (page : PageInfo)
    : list Event * ChainResult Data :=
  let image := imageId (page_id page) in
  match loadImage env image with
  | None => ([Load image], LoadFailed (filePath image))
  | Some data =>
      let '(events, result) := runStages stages (page_id page) data in
      (Load image :: events, result)
  end.
End Execution.

(** The events of a chain over [stages] in which every stage completes. *)
Definition forwardEvents (stages : list Stage) (p : PageId) : list Event :=
  stages ≫= λ s, [Begin s p; Finish s p].

(** Follows the words of the spec (4.2): starting from the last requested
    stage and walking down to stage 0, each stage's factory is called with
    the previously built task, which is null on the first iteration. *)
Fixpoint buildBackward (factory : Stage → option Task → option Task)
    (descending : list Stage) (previouslyBuiltTask : option Task) : option Task :=
  match descending with
  | [] => previouslyBuiltTask
  | s :: lower => buildBackward factory lower (factory s previouslyBuiltTask)
  end.

Definition stagesUpTo (k : nat) : list Stage := take (S k) allStages.
Definition stagesDownFrom (k : nat) : list Stage := reverse (stagesUpTo k).

(** ** Settings stores and relinking *)

#[global] Instance SubPage_countable : Countable SubPage.
Proof.
  refine (inj_countable'
    (λ s, match s with SINGLE_PAGE => 0%nat | LEFT_PAGE => 1%nat | RIGHT_PAGE => 2%nat end)
    (λ n, match n with 0%nat => SINGLE_PAGE | 1%nat => LEFT_PAGE | _ => RIGHT_PAGE end) _).
  by intros [].
Defined.

#[global] Instance ImageId_countable : Countable ImageId.
Proof.
  refine (inj_countable' (λ i, (filePath i, imageIdx i)) (λ '(p, n), mkImageId p n) _).
  by intros [].
Defined.

#[global] Instance PageId_countable : Countable PageId.
Proof.
  refine (inj_countable' (λ p, (imageId p, subPage p)) (λ '(i, s), mkPageId i s) _).
  by intros [].
Defined.

(** Modelled from the spec: the settings store of a stage (the Settings
    classes of the stages are absent): a mapping from page identity to that
    stage's persisted parameters. *)
Abbreviation SettingsStore Settings := (gmap PageId Settings).

(** Modelled from the spec: StageSequence as the owner of one settings
    store per stage (StageSequence.h is absent). *)
Definition StageSequence (Settings : Type) : Type := Stage → SettingsStore Settings.

(** A fresh stage sequence: no page has settings yet (they are created
    lazily on first access). *)
Definition newStageSequence {Settings : Type} : StageSequence Settings := λ _, ∅.

(** Modelled from the spec: a relinker (AbstractRelinker is absent) gives
    the path that replaces a recorded source path. *)
Definition Relinker : Type := string → string.

Definition relinkImageId (relinker : Relinker) (image : ImageId) : ImageId :=
  mkImageId (relinker (filePath image)) (imageIdx image).

Definition relinkPageId (relinker : Relinker) (p : PageId) : PageId :=
  mkPageId (relinkImageId relinker (imageId p)) (subPage p).

(** Modelled from the spec: [StageSequence::performRelinking] (absent): the
    relink pass rewrites the source path inside the ImageId of every key,
    uniformly across all settings stores, and keeps the settings stored
    under each key. *)
Definition performRelinking {Settings : Type} (relinker : Relinker)
    (stages : StageSequence Settings) : StageSequence Settings :=
  λ s, kmap (relinkPageId relinker) (stages s).

(** ** Project files and the results of the engine *)

(** What opening and parsing a project file yields: the file cannot be
    opened, [QDomDocument::setContent] rejects it, or a document from which
    the reader obtains the page catalog (a null pointer is [None]), the
    output directory and the relinker. *)
Inductive ProjectFile :=
  | Unreadable
  | Malformed
  | Document (pages : option ProjectPages) (outputDirectory : string)
             (relinker : Relinker).

(** [QString::isEmpty]. *)
Definition isEmpty (s : string) : bool :=
  match s with EmptyString => true | String _ _ => false end.

Inductive Constructed (A : Type) :=
  | Object (this : A)
  | RuntimeError (what : string)
  | NullDereference.
Arguments Object {A} this.
Arguments RuntimeError {A} what.
Arguments NullDereference {A}.

(** How a call of [process] ends: it returns, an exception leaves it, the
    process is aborted (a failed assertion or a null root task), or an
    integer or floating-point division has a zero divisor. *)
Inductive Outcome :=
  | Returns
  | Throws (e : Exn)
  | Aborts
  | DivisionByZero.

#[global] Instance Exn_eq_dec : EqDecision Exn.
Proof. solve_decision. Defined.
#[global] Instance Outcome_eq_dec : EqDecision Outcome.
Proof. solve_decision. Defined.

(** What [process] does and writes, in order. *)
Inductive LogItem :=
  | Attempt (page : PageInfo)
  | Announce (index total : Z) (path : string)
  | Ran (e : Event)
  | PageCompleted (page : PageInfo)
  | PageFailed (page : PageInfo) (failing : option Stage) (reason : string)
  | PageException (page : PageInfo) (e : Exn)
  | Progress (percent : Q) (processed total elapsed_s remaining_s : Z)
  | NoPages
  | Starting (total : Z)
  | Summary (total processed failed total_time : Z) (avg_time : Q).

(** The pages whose composite task was built and started, in order. *)
Definition attempted (log : list LogItem) : list PageInfo :=
  omap (λ item, match item with Attempt page => Some page | _ => None end) log.

(** The pages for which a failure was recorded, in order. *)
Definition recordedFailures (log : list LogItem) : list PageInfo :=
  omap (λ item,
    match item with
    | PageFailed page _ _ | PageException page _ => Some page
    | _ => None
    end) log.

(** The unit-of-work events of a log. *)
Definition ranEvents (log : list LogItem) : list Event :=
  omap (λ item, match item with Ran e => Some e | _ => None end) log.

(** The counts (total, processed, failed) of the summaries written. *)
Definition summaries (log : list LogItem) : list (Z * Z * Z) :=
  omap (λ item,
    match item with
    | Summary total processed failed _ _ => Some (total, processed, failed)
    | _ => None
    end) log.

(** The counts of the final summary, when one was written. *)
Definition summaryCounts (log : list LogItem) : option (Z * Z * Z) :=
  last (summaries log).

(** Items that are neither an attempt, an event, a failure nor a summary. *)
Definition quiet (items : list LogItem) : Prop :=
  attempted items = [] ∧ ranEvents items = []
  ∧ recordedFailures items = [] ∧ summaries items = [].

(** ** The baseline unit: ConsoleBatch_ubuntu_arm64.cpp *)

Module Baseline.

Record ConsoleBatch (Settings : Type) := mkConsoleBatch {
  batch : bool;
  debug : bool;
  m_ptrPages : ProjectPages;
  m_ptrStages : StageSequence Settings;
  outputDirectory : string
}.
Arguments mkConsoleBatch {Settings} _ _ _ _ _.
Arguments batch {Settings} _.
Arguments debug {Settings} _.
Arguments m_ptrPages {Settings} _.
Arguments m_ptrStages {Settings} _.
Arguments outputDirectory {Settings} _.

Section Engine.
Context {Settings Data : Type} (env : Env Data).

(** [ConsoleBatch::ConsoleBatch(QString const project_file)]. *)
Definition newConsoleBatch (project_file : ProjectFile)
    : Constructed (ConsoleBatch Settings) :=
  match project_file with
  | Unreadable => RuntimeError "Unable to open the project file."
  | Malformed => RuntimeError "The project file is broken."
  | Document pages output_directory relinker =>
      let stages := performRelinking relinker newStageSequence in
      if isEmpty output_directory then RuntimeError "Output directory is not set."
      else
        match pages with
        | None => NullDereference
        | Some m_ptrPages =>
            Object (mkConsoleBatch true true m_ptrPages stages output_directory)
        end
  end.

Definition setDebug (this : ConsoleBatch Settings) (d : bool) : ConsoleBatch Settings :=
  mkConsoleBatch (batch this) d (m_ptrPages this) (m_ptrStages this)
                 (outputDirectory this).

(** [ConsoleBatch::createCompositeTask(page, last_filter_idx)]: the
    member [debug] is cleared when [batch] is set and after every
    factory call; the factory of the fix-orientation stage takes no
    debug flag; the only assertion is on the fix-orientation task. *)
Definition createCompositeTask (this : ConsoleBatch Settings) (page : PageInfo)
    (last_filter_idx : Z) : Checked LoadFileTask * ConsoleBatch Settings :=
  let batch := batch this in
  let debug := if batch then false else debug this in
  let '(output_task, debug) :=
    if last_filter_idx >=? outputFilterIdx
    then (createTask env Output (page_id page) None batch (Some debug), false)
    else (None, debug) in
  let '(page_layout_task, debug) :=
    if last_filter_idx >=? pageLayoutFilterIdx
    then (createTask env PageLayout (page_id page) output_task batch (Some debug), false)
    else (None, debug) in
  let '(select_content_task, debug) :=
    if last_filter_idx >=? selectContentFilterIdx
    then (createTask env SelectContent (page_id page) page_layout_task batch (Some debug), false)
    else (None, debug) in
  let '(deskew_task, debug) :=
    if last_filter_idx >=? deskewFilterIdx
    then (createTask env Deskew (page_id page) select_content_task batch (Some debug), false)
    else (None, debug) in
  let '(page_split_task, debug) :=
    if last_filter_idx >=? pageSplitFilterIdx
    then (createTask env PageSplit (page_id page) deskew_task batch (Some debug), false)
    else (None, debug) in
  let '(fix_orientation_task, debug) :=
    if last_filter_idx >=? fixOrientationFilterIdx
    then (createTask env FixOrientation (page_id page) page_split_task batch None, false)
    else (None, debug) in
  (_ ← asserted FixOrientation fix_orientation_task;
   mret (mkLoadFileTask BATCH page fix_orientation_task),
   setDebug this debug).

(** The page loop of [ConsoleBatch::process]: the result of the task is
    dropped, and nothing catches what the task throws. *)
Fixpoint processPages (this : ConsoleBatch Settings) (num_pages : Z) (i : Z)
    (pages : list PageInfo) : list LogItem * Outcome * ConsoleBatch Settings :=
  match pages with
  | [] => ([], Returns, this)
  | page_info :: rest =>
      let announce :=
        if isVerbose env
        then [Announce (i + 1) num_pages (filePath (imageId (page_id page_info)))]
        else [] in
      let '(built, this) := createCompositeTask this page_info lastFilterIdx in
      match built with
      | AssertionFailed _ => (Attempt page_info :: announce, Aborts, this)
      | Pass bgTask =>
          let '(events, result) := runLoadFileTask env bgTask in
          let log := Attempt page_info :: announce ++ (Ran <$> events) in
          match result with
          | Threw e => (log, Throws e, this)
          | NoRootTask => (log, Aborts, this)
          | ChainOk _ | LoadFailed _ | StageFailed _ _ =>
              let '(log', outcome, this) := processPages this num_pages (i + 1) rest in
              (log ++ log', outcome, this)
          end
      end
  end.

(** [ConsoleBatch::process()]. *)
Definition process (this : ConsoleBatch Settings)
    : list LogItem * Outcome * ConsoleBatch Settings :=
  let page_sequence := toPageSequence (m_ptrPages this) PAGE_VIEW in
  let num_pages := Z.of_nat (length page_sequence) in
  processPages this num_pages 0 page_sequence.
End Engine.

End Baseline.

(** ** The optimized unit: ConsoleBatch_ubuntu_arm64_optimized.cpp *)

(** A division that traps on a zero divisor ([qint64] division truncates
    towards zero). *)
Definition checkedQuot (n d : Z) : option Z :=
  if d =? 0 then None else Some (n ÷ d).

(** A [double] division by an integer divisor, on exact rationals; a zero
    divisor is reported instead of producing an infinity or a NaN. *)
Definition checkedDiv (n : Q) (d : Z) : option Q :=
  if d =? 0 then None else Some (n / inject_Z d)%Q.

Module Optimized.

(** [m_ptrStages] only records whether the pointer is set: the settings
    the constructor configures from the command line (setupFixOrientation
    and its siblings) are read by the stage computations, which are
    external here. *)
Record ConsoleBatch := mkConsoleBatch {
  m_ptrPages : option ProjectPages;
  m_ptrStages : bool;
  m_debug : bool;
  outputDirectory : string
}.

(** [ConsoleBatch::ConsoleBatch(QString const& project_file)].  The
    initial value of [m_debug] is not set by this unit and is taken as an
    argument. *)
Definition newConsoleBatch (initial_debug : bool) (project_file : ProjectFile)
    : Constructed ConsoleBatch :=
  match project_file with
  | Unreadable => RuntimeError "Unable to open project file for reading"
  | Malformed => RuntimeError "Project file is not a valid XML document"
  | Document pages output_dir _ =>
      match pages with
      | None => RuntimeError "Failed to load project pages"
      | Some _ => Object (mkConsoleBatch pages true initial_debug output_dir)
      end
  end.

(** [ConsoleBatch::setDebugMode]. *)
Definition setDebugMode (this : ConsoleBatch) (debug : bool) : ConsoleBatch :=
  mkConsoleBatch (m_ptrPages this) (m_ptrStages this) debug (outputDirectory this).

(** The divisor of the timing computations: [std::max(1, processed)]. *)
Definition divisor (processed : Z) : Z := Z.max 1 processed.

(** [estimated_total] of the progress update.  The product is the
    mathematical one: it is the [qint64] product of the code as long as
    it fits 63 bits. *)
Definition estimatedTotal (elapsed total processed : Z) : option Z :=
  checkedQuot (elapsed * total) (divisor processed).

(** [remaining] of the progress update. *)
Definition remainingTime (elapsed total processed : Z) : option Z :=
  estimated_total ← estimatedTotal elapsed total processed;
  Some (estimated_total - elapsed).

(** [avg_time] of the final summary. *)
Definition averageTime (total_time processed : Z) : option Q :=
  checkedDiv (inject_Z total_time) (divisor processed).

(** The progress update at the end of an iteration of the page loop. *)
Definition progressUpdate (processed total elapsed : Z) : option (list LogItem) :=
  if (Z.rem processed 10 =? 0) || (processed =? total) then
    progress ← checkedDiv (100 * inject_Z processed)%Q total;
    remaining ← remainingTime elapsed total processed;
    Some [Progress progress processed total (elapsed ÷ 1000) (remaining ÷ 1000)]
  else Some [].

Inductive Step :=
  | Next (processed : Z)
  | Stop (how : Outcome).

Section Engine.
Context {Data : Type} (env : Env Data).

(** [ConsoleBatch::createCompositeTask(page, last_filter_idx, batch,
    debug)]: every factory receives the parameter [debug] as it is, and
    every factory call is followed by an assertion inside its guard.
    The acceleration block after the last guard does not touch the
    tasks. *)
Definition createCompositeTask (page : PageInfo) (last_filter_idx : Z)
    (batch debug : bool) : Checked LoadFileTask :=
  output_task ←
    (if last_filter_idx >=? 5
     then asserted Output (createTask env Output (page_id page) None batch (Some debug))
     else Pass None);
  page_layout_task ←
    (if last_filter_idx >=? 4
     then asserted PageLayout
            (createTask env PageLayout (page_id page) output_task batch (Some debug))
     else Pass None);
  select_content_task ←
    (if last_filter_idx >=? 3
     then asserted SelectContent
            (createTask env SelectContent (page_id page) page_layout_task batch (Some debug))
     else Pass None);
  deskew_task ←
    (if last_filter_idx >=? 2
     then asserted Deskew
            (createTask env Deskew (page_id page) select_content_task batch (Some debug))
     else Pass None);
  page_split_task ←
    (if last_filter_idx >=? 1
     then asserted PageSplit
            (createTask env PageSplit (page_id page) deskew_task batch (Some debug))
     else Pass None);
  fix_orientation_task ←
    (if last_filter_idx >=? 0
     then asserted FixOrientation
            (createTask env FixOrientation (page_id page) page_split_task batch (Some debug))
     else Pass None);
  mret (mkLoadFileTask LOAD_IMAGE page fix_orientation_task).

(** One iteration of the page loop of [ConsoleBatch::process]: the body
    of the try block and its two handlers.  The pointer returned by
    [createCompositeTask] comes from [new] and is never null, so the
    branch for a null task is not reachable.  The progress update is
    skipped when the task throws. *)
Definition processPage (this : ConsoleBatch) (total processed : Z) (tick : nat)
    (page_info : PageInfo) : list LogItem * Step :=
  let announce :=
    [Attempt page_info;
     Announce (processed + 1) total (filePath (imageId (page_id page_info)))] in
  match createCompositeTask page_info 5 true (m_debug this) with
  | AssertionFailed _ => (announce, Stop Aborts)
  | Pass task =>
      let '(events, result) := runLoadFileTask env task in
      let log := announce ++ (Ran <$> events) in
      let finish (processed : Z) (report : list LogItem) :=
        match progressUpdate processed total (elapsed env tick) with
        | None => (log ++ report, Stop DivisionByZero)
        | Some progress => (log ++ report ++ progress, Next processed)
        end in
      match result with
      | ChainOk _ => finish (processed + 1) [PageCompleted page_info]
      | LoadFailed path => finish processed [PageFailed page_info None path]
      | StageFailed s reason => finish processed [PageFailed page_info (Some s) reason]
      | Threw e => (log ++ [PageException page_info e], Next processed)
      | NoRootTask => (log, Stop Aborts)
      end
  end.

(** The page loop. *)
Fixpoint processPages (this : ConsoleBatch) (total processed : Z) (tick : nat)
    (pages : list PageInfo) : list LogItem * Step :=
  match pages with
  | [] => ([], Next processed)
  | page_info :: rest =>
      match processPage this total processed tick page_info with
      | (log, Stop how) => (log, Stop how)
      | (log, Next processed) =>
          let '(log', step) := processPages this total processed (S tick) rest in
          (log ++ log', step)
      end
  end.

(** [ConsoleBatch::process()].  The counters are mathematical integers:
    catalogs are taken to have fewer than 2^31 pages. *)
Definition process (this : ConsoleBatch) : list LogItem * Outcome :=
  match m_ptrPages this, m_ptrStages this with
  | Some m_ptrPages, true =>
      let pages := toPageSequence m_ptrPages IMAGE_VIEW in
      if Z.of_nat (length pages) =? 0 then ([NoPages], Returns)
      else
        let total := Z.of_nat (length pages) in
        match processPages this total 0 0%nat pages with
        | (log, Stop how) => (Starting total :: log, how)
        | (log, Next processed) =>
            let total_time := elapsed env (length pages) in
            match averageTime total_time processed with
            | None => (Starting total :: log, DivisionByZero)
            | Some avg_time =>
                (Starting total :: log ++
                   [Summary total processed (total - processed) total_time avg_time],
                 if processed <? total
                 then Throws (StdException "Some pages failed to process")
                 else Returns)
            end
        end
  | _, _ => ([], Throws (StdException "Project not properly initialized"))
  end.

(** Whether the composite task of [page] runs to a successful result. *)
Definition pageSucceeds (this : ConsoleBatch) (page : PageInfo) : bool :=
  match createCompositeTask page 5 true (m_debug this) with
  | Pass task => isOk (runLoadFileTask env task).2
  | AssertionFailed _ => false
  end.
End Engine.

End Optimized.

(** ** Comparing the two units *)

(** The debug argument the baseline passes to the factory of stage [s] when
    it builds a chain through stage [k]: none for the fix-orientation
    stage; otherwise the member [debug] reaches only the first factory
    called (the highest stage), and only outside batch mode. *)
Definition baselineDebugArg {Settings} (this : Baseline.ConsoleBatch Settings)
    (k : nat) (s : Stage) : option bool :=
  match s with
  | FixOrientation => None
  | _ => Some (bool_decide (stageIdx s = Z.of_nat k)
               && negb (Baseline.batch this) && Baseline.debug this)
  end.



(** Modelled from the spec: the batch invocation on an existing project
    file (the command-line entry point is absent): the object is
    constructed, then [process] is called; a constructor that throws ends
    the run before [process] starts. *)
Definition runProject {A : Type} (construct : ProjectFile → Constructed A)
    (process : A → list LogItem * Outcome) (project_file : ProjectFile)
    : list LogItem * Outcome :=
  match construct project_file with
  | Object this => process this
  | RuntimeError what => ([], Throws (StdException what))
  | NullDereference => ([], Aborts)
  end.

(** ** The project reader of the optimized unit *)

Module SpecReader.

(** What [ProjectReader::readProject] does with a parsed document: it
    fails, or it hands the page catalog and the output directory to its
    caller. *)
Inductive ReadOutcome :=
  | ReadFailed (what : string)
  | ReadDone (pages : option ProjectPages) (output_dir : string).

(** Modelled from the spec: [ProjectReader::readProject] (ProjectReader.h
    is absent; the baseline unit uses another interface of the class, the
    accessors [pages()] and [outputDirectory()]).  Reader contract: "fail
    with a structural error if the document is not well-formed or if the
    output directory is missing".  The text of the error is the reader's
    own and is left open. *)
Definition readProject (reader_error : string) (pages : option ProjectPages)
    (output_dir : string) : ReadOutcome :=
  if isEmpty output_dir then ReadFailed reader_error else ReadDone pages output_dir.

(** The optimized constructor run with this reader: an error raised by
    [readProject] leaves the constructor, which has no handler; otherwise
    the constructor goes on with what the reader handed over. *)
Definition newConsoleBatch (reader_error : string) (initial_debug : bool)
    (project_file : ProjectFile) : Constructed Optimized.ConsoleBatch :=
  match project_file with
  | Document pages output_dir relinker =>
      match readProject reader_error pages output_dir with
      | ReadFailed what => RuntimeError what
      | ReadDone pages output_dir =>
          Optimized.newConsoleBatch initial_debug (Document pages output_dir relinker)
      end
  | Unreadable | Malformed => Optimized.newConsoleBatch initial_debug project_file
  end.

End SpecReader.

(** ** Concrete catalogs and environments *)

Definition scan (path : string) : PageInfo :=
  mkPageInfo (mkPageId (mkImageId path 0) SINGLE_PAGE).

Definition page1 : PageInfo := scan "scan-001.tif".
Definition page2 : PageInfo := scan "scan-002.tif".
Definition page3 : PageInfo := scan "scan-003.tif".

Definition catalogOf (pages : list PageInfo) : ProjectPages := λ _, pages.

(** Every factory yields a task, every image loads, every stage succeeds;
    the data handed along the chain is the list of stages applied so far. *)
Definition idealEnv : Env (list Stage) :=
  mkEnv (list Stage)
    (λ _ _, true)
    (λ _, Some [])
    (λ s _ data, Done (data ++ [s]))
    (λ n, 1500 * Z.of_nat n)
    true.

(** As [idealEnv], but the deskew computation throws on the first page. *)
Definition throwingEnv : Env (list Stage) :=
  mkEnv (list Stage)
    (λ _ _, true)
    (λ _, Some [])
    (λ s p data,
       if bool_decide (s = Deskew ∧ p = page_id page1)
       then Raised (StdException "bad allocation")
       else Done (data ++ [s]))
    (λ n, 1500 * Z.of_nat n)
    true.

(** As [idealEnv], but the source file of the second page is missing. *)
Definition missingFileEnv : Env (list Stage) :=
  mkEnv (list Stage)
    (λ _ _, true)
    (λ image, if bool_decide (image = imageId (page_id page2)) then None else Some [])
    (λ s _ data, Done (data ++ [s]))
    (λ n, 1500 * Z.of_nat n)
    true.

(** As [idealEnv], but the factory of the output stage yields no task. *)
Definition noOutputEnv : Env (list Stage) :=
  mkEnv (list Stage)
    (λ s _, bool_decide (s ≠ Output))
    (λ _, Some [])
    (λ s _ data, Done (data ++ [s]))
    (λ n, 1500 * Z.of_nat n)
    true.

(** As [idealEnv], but the factory of the fix-orientation stage yields no
    task for the second page. *)
Definition noRootEnv : Env (list Stage) :=
  mkEnv (list Stage)
    (λ s p, negb (bool_decide (s = FixOrientation ∧ p = page_id page2)))
    (λ _, Some [])
    (λ s _ data, Done (data ++ [s]))
    (λ n, 1500 * Z.of_nat n)
    true.

Definition baselineBatch (pages : list PageInfo) : Baseline.ConsoleBatch unit :=
  Baseline.mkConsoleBatch true true (catalogOf pages) newStageSequence "out".

Definition optimizedBatch (debug : bool) (pages : list PageInfo) : Optimized.ConsoleBatch :=
  Optimized.mkConsoleBatch (Some (catalogOf pages)) true debug "out".

(** A project file whose document names no output directory. *)
Definition projectWithoutOutputDirectory : ProjectFile :=
  Document (Some (catalogOf [page1])) "" (λ path, path).





(** ** The rest of the optimized unit: loading, saving and the accessors *)

(** The page numbers written in the "Processing page i/n" lines, in order. *)
Definition announcedIndexes (log : list LogItem) : list Z :=
  omap (λ item, match item with Announce index _ _ => Some index | _ => None end) log.

Module OptimizedProject.

(** The optimized object with the member [m_outDir], which [loadProject]
    writes and [saveProject], [outputDirectory] and [isProjectValid] read.
    It is a member of its own: the directory the output file-name
    generator was built with is [Optimized.outputDirectory]. *)
Record ConsoleBatch := mkConsoleBatch {
  core : Optimized.ConsoleBatch;
  m_outDir : string
}.

(** [ConsoleBatch::ConsoleBatch(QString const& project_file)], with
    [m_outDir]: the member is neither in the initialiser list nor assigned
    in the body (the directory read from the file goes to the local
    [output_dir]), so it keeps the empty string it is constructed with. *)
Definition newConsoleBatch (initial_debug : bool) (project_file : ProjectFile)
    : Constructed ConsoleBatch :=
  match Optimized.newConsoleBatch initial_debug project_file with
  | Object core => Object (mkConsoleBatch core "")
  | RuntimeError what => RuntimeError what
  | NullDereference => NullDereference
  end.

(** [ConsoleBatch::loadProject]: the reader writes the page catalog and
    the output directory into the members before the catalog is tested;
    the stage sequence is replaced only after the test; the debug mode
    and the output file-name generator are not touched. *)
Definition loadProject (this : ConsoleBatch) (project_file : ProjectFile)
    : Outcome * ConsoleBatch :=
  match project_file with
  | Unreadable => (Throws (StdException "Unable to open project file for reading"), this)
  | Malformed => (Throws (StdException "Project file is not a valid XML document"), this)
  | Document pages output_dir _ =>
      let read stages :=
        mkConsoleBatch
          (Optimized.mkConsoleBatch pages stages (Optimized.m_debug (core this))
             (Optimized.outputDirectory (core this)))
          output_dir in
      match pages with
      | None =>
          (Throws (StdException "Failed to load project pages"),
           read (Optimized.m_ptrStages (core this)))
      | Some _ => (Returns, read true)
      end
  end.

(** What [saveProject] writes: nothing, or the document the writer makes
    of the page catalog and of the output directory it is given. *)
Inductive Saved :=
  | NothingWritten
  | Written (pages : ProjectPages) (outDir : string).

(** [ConsoleBatch::saveProject]; [writable] tells whether the file opens
    for writing. *)
Definition saveProject (this : ConsoleBatch) (writable : bool) : Outcome * Saved :=
  match Optimized.m_ptrPages (core this), Optimized.m_ptrStages (core this) with
  | Some m_ptrPages, true =>
      if writable then (Returns, Written m_ptrPages (m_outDir this))
      else (Throws (StdException "Unable to open project file for writing"), NothingWritten)
  | _, _ => (Throws (StdException "No project to save"), NothingWritten)
  end.

(** [ConsoleBatch::outputDirectory]. *)
Definition outputDirectory (this : ConsoleBatch) : string := m_outDir this.

(** [ConsoleBatch::isProjectValid]. *)
Definition isProjectValid (this : ConsoleBatch) : bool :=
  match Optimized.m_ptrPages (core this) with Some _ => true | None => false end
  && Optimized.m_ptrStages (core this)
  && negb (isEmpty (m_outDir this)).

(** [ConsoleBatch::pageCount]. *)
Definition pageCount (this : ConsoleBatch) : Z :=
  match Optimized.m_ptrPages (core this) with
  | None => 0
  | Some m_ptrPages => Z.of_nat (length (toPageSequence m_ptrPages IMAGE_VIEW))
  end.

(** [ConsoleBatch::setDebugMode] and [ConsoleBatch::debugMode]. *)
Definition setDebugMode (this : ConsoleBatch) (debug : bool) : ConsoleBatch :=
  mkConsoleBatch (Optimized.setDebugMode (core this) debug) (m_outDir this).


(** The local class [ConsolePageSelectionAccessor]. *)
Record ConsolePageSelectionAccessor := mkAccessor { m_allPages : list PageInfo }.

Definition allPages (accessor : ConsolePageSelectionAccessor) : list PageInfo :=
  m_allPages accessor.

Definition selectedPages (accessor : ConsolePageSelectionAccessor) : list PageInfo :=
  m_allPages accessor.

(** The loop that inserts the id of every page into a [std::set]. *)
Definition selectedPageIds (accessor : ConsolePageSelectionAccessor) : gset PageId :=
  foldl (λ ids page_info, {[ page_id page_info ]} ∪ ids) ∅ (m_allPages accessor).

(** [ConsoleBatch::newPageSelectionAccessor]: the pages are set only when
    the catalog pointer is; a fresh accessor holds an empty sequence. *)
Definition newPageSelectionAccessor (this : ConsoleBatch) : ConsolePageSelectionAccessor :=
  match Optimized.m_ptrPages (core this) with
  | Some m_ptrPages => mkAccessor (toPageSequence m_ptrPages IMAGE_VIEW)
  | None => mkAccessor []
  end.

End OptimizedProject.

(** ** The filter setup functions of the baseline unit *)

Module Setup.

(** [CommandLine::Orientation]: the three enumerators the switch of
    [setupFixOrientation] names, and whatever falls to its default. *)
Inductive Orientation := LEFT | RIGHT | UPSIDEDOWN | OtherOrientation.

(** The value classes the setup functions pass around, with the member
    functions they call on them.  Their headers are absent: the types are
    kept abstract and the member functions are taken as they are called. *)
Record Values := mkValues {
  OrthogonalRotation : Type;
  LayoutType : Type;
  QRectF : Type;
  QSizeF : Type;
  Margins : Type;
  Dpi : Type;
  ColorMode : Type;
  ColorParams : Type;
  PictureShape : Type;
  SplittingOptions : Type;
  BinarizationOptions : Type;
  DespeckleLevel : Type;
  DepthPerception : Type;
  DewarpingOptions : Type;
  defaultRotation : OrthogonalRotation;
  nextClockwiseDirection : OrthogonalRotation → OrthogonalRotation;
  prevClockwiseDirection : OrthogonalRotation → OrthogonalRotation;
  isNull : QSizeF → bool;
  isMixed : ColorMode → bool;
  setColorMode : ColorMode → ColorParams → ColorParams;
  setSplitOutput : bool → SplittingOptions → SplittingOptions;
  setPictureShape : PictureShape → SplittingOptions → SplittingOptions;
  setThresholdAdjustment : Z → BinarizationOptions → BinarizationOptions;
  setDepthPerception : DepthPerception → DewarpingOptions → DewarpingOptions
}.

(** [output::Params], as [setupOutput] uses it: one component per setter. *)
Record Params (V : Values) := mkParams {
  outputDpi : Dpi V;
  colorParams : ColorParams V;
  splittingOptions : SplittingOptions V;
  whiteMargins : bool;
  normalizeIllumination : bool;
  binarizationOptions : BinarizationOptions V;
  despeckleLevel : DespeckleLevel V;
  dewarpingOptions : DewarpingOptions V
}.
Arguments mkParams {V} _ _ _ _ _ _ _ _.
Arguments outputDpi {V} _.
Arguments colorParams {V} _.
Arguments splittingOptions {V} _.
Arguments whiteMargins {V} _.
Arguments normalizeIllumination {V} _.
Arguments binarizationOptions {V} _.
Arguments despeckleLevel {V} _.
Arguments dewarpingOptions {V} _.

(** The command line, as the setup functions query it: an option is
    [Some] when its [has...] test holds, and then carries what its
    [get...] returns.  [getSplittingOptions] and [getDewarpingOptions]
    modify the options they are handed. *)
Record CommandLine (V : Values) := mkCommandLine {
  cliOrientation : option Orientation;
  cliLayout : option (LayoutType V);
  cliDeskewAngle : option Q;
  cliContentRect : option (QRectF V);
  cliContentSizeMM : QSizeF V;
  cliMargins : option (Margins V);
  cliOutputDpi : option (Dpi V);
  cliColorMode : option (ColorMode V);
  cliPictureShape : option (PictureShape V);
  cliSplittingOptions : option (SplittingOptions V → SplittingOptions V);
  cliWhiteMargins : option bool;
  cliNormalizeIllumination : option bool;
  cliThreshold : option Z;
  cliDespeckleLevel : option (DespeckleLevel V);
  cliDepthPerception : option (DepthPerception V);
  cliDewarpingOptions : option (DewarpingOptions V → DewarpingOptions V)
}.
Arguments cliOrientation {V} _.
Arguments cliLayout {V} _.
Arguments cliDeskewAngle {V} _.
Arguments cliContentRect {V} _.
Arguments cliContentSizeMM {V} _.
Arguments cliMargins {V} _.
Arguments cliOutputDpi {V} _.
Arguments cliColorMode {V} _.
Arguments cliPictureShape {V} _.
Arguments cliSplittingOptions {V} _.
Arguments cliWhiteMargins {V} _.
Arguments cliNormalizeIllumination {V} _.
Arguments cliThreshold {V} _.
Arguments cliDespeckleLevel {V} _.
Arguments cliDepthPerception {V} _.
Arguments cliDewarpingOptions {V} _.

(** The member functions of the stages' Settings the setup functions call,
    on the settings [S] of the whole stage sequence.  [applyToPageId] is
    always called with the default dependencies and MODE_AUTO, and
    [setPageDetectionMode] with MODE_MANUAL. *)
Record SettingsApi (V : Values) (S : Type) := mkSettingsApi {
  applyRotation : ImageId → OrthogonalRotation V → S → S;
  setLayoutTypeForAllPages : LayoutType V → S → S;
  setPageAngle : PageId → Q → S → S;
  applyToPageId : PageId → S → S;
  setPageDetectionMode : PageId → S → S;
  setPageDetectionBox : PageId → QRectF V → S → S;
  setPageDetectionTargetSize : PageId → QSizeF V → S → S;
  setHardMarginsMM : PageId → Margins V → S → S;
  getParams : PageId → S → Params V;
  setParams : PageId → Params V → S → S
}.
Arguments applyRotation {V S} _ _ _ _.
Arguments setLayoutTypeForAllPages {V S} _ _ _.
Arguments setPageAngle {V S} _ _ _ _.
Arguments applyToPageId {V S} _ _ _.
Arguments setPageDetectionMode {V S} _ _ _.
Arguments setPageDetectionBox {V S} _ _ _ _.
Arguments setPageDetectionTargetSize {V S} _ _ _ _.
Arguments setHardMarginsMM {V S} _ _ _ _.
Arguments getParams {V S} _ _ _.
Arguments setParams {V S} _ _ _ _.

Section Functions.
Context {V : Values} {S : Type} (api : SettingsApi V S) (cli : CommandLine V).

(** The setters of [output::Params]. *)
Definition setOutputDpi (dpi : Dpi V) (params : Params V) : Params V :=
  mkParams dpi (colorParams params) (splittingOptions params) (whiteMargins params)
    (normalizeIllumination params) (binarizationOptions params) (despeckleLevel params)
    (dewarpingOptions params).

Definition setColorParams (color_params : ColorParams V) (params : Params V) : Params V :=
  mkParams (outputDpi params) color_params (splittingOptions params) (whiteMargins params)
    (normalizeIllumination params) (binarizationOptions params) (despeckleLevel params)
    (dewarpingOptions params).

Definition setSplittingOptions (splitting_options : SplittingOptions V)
    (params : Params V) : Params V :=
  mkParams (outputDpi params) (colorParams params) splitting_options (whiteMargins params)
    (normalizeIllumination params) (binarizationOptions params) (despeckleLevel params)
    (dewarpingOptions params).

Definition setWhiteMargins (white_margins : bool) (params : Params V) : Params V :=
  mkParams (outputDpi params) (colorParams params) (splittingOptions params) white_margins
    (normalizeIllumination params) (binarizationOptions params) (despeckleLevel params)
    (dewarpingOptions params).

Definition setNormalizeIllumination (normalize : bool) (params : Params V) : Params V :=
  mkParams (outputDpi params) (colorParams params) (splittingOptions params)
    (whiteMargins params) normalize (binarizationOptions params) (despeckleLevel params)
    (dewarpingOptions params).

Definition setBinarizationOptions (binarization_options : BinarizationOptions V)
    (params : Params V) : Params V :=
  mkParams (outputDpi params) (colorParams params) (splittingOptions params)
    (whiteMargins params) (normalizeIllumination params) binarization_options
    (despeckleLevel params) (dewarpingOptions params).

Definition setDespeckleLevel (despeckle_level : DespeckleLevel V)
    (params : Params V) : Params V :=
  mkParams (outputDpi params) (colorParams params) (splittingOptions params)
    (whiteMargins params) (normalizeIllumination params) (binarizationOptions params)
    despeckle_level (dewarpingOptions params).

Definition setDewarpingOptions (dewarping_options : DewarpingOptions V)
    (params : Params V) : Params V :=
  mkParams (outputDpi params) (colorParams params) (splittingOptions params)
    (whiteMargins params) (normalizeIllumination params) (binarizationOptions params)
    (despeckleLevel params) dewarping_options.

(** [ConsoleBatch::setupFixOrientation]: the rotation is computed anew for
    every page and applied to the page's image, with or without an
    orientation on the command line. *)
Definition setupFixOrientation (allPages : list PageId) (settings : S) : S :=
  foldl (λ settings page_id,
    let rotation := defaultRotation V in
    let rotation :=
      match cliOrientation cli with
      | Some LEFT => prevClockwiseDirection V rotation
      | Some RIGHT => nextClockwiseDirection V rotation
      | Some UPSIDEDOWN => nextClockwiseDirection V (nextClockwiseDirection V rotation)
      | Some OtherOrientation | None => rotation
      end in
    applyRotation api (imageId page_id) rotation settings) settings allPages.

(** [ConsoleBatch::setupPageSplit]. *)
Definition setupPageSplit (allPages : list PageId) (settings : S) : S :=
  match cliLayout cli with
  | Some layout => setLayoutTypeForAllPages api layout settings
  | None => settings
  end.

(** [ConsoleBatch::setupDeskew]: whatever [applyToPageId] answers, nothing
    more is done for the page. *)
Definition setupDeskew (allPages : list PageId) (settings : S) : S :=
  foldl (λ settings page_id,
    match cliDeskewAngle cli with
    | Some angle => setPageAngle api page_id angle settings
    | None => applyToPageId api page_id settings
    end) settings allPages.

(** [ConsoleBatch::setupSelectContent]. *)
Definition setupSelectContent (allPages : list PageId) (settings : S) : S :=
  foldl (λ settings page_id,
    match cliContentRect cli with
    | Some content_rect =>
        let content_size_mm := cliContentSizeMM cli in
        let settings := setPageDetectionMode api page_id settings in
        let settings := setPageDetectionBox api page_id content_rect settings in
        if negb (isNull V content_size_mm)
        then setPageDetectionTargetSize api page_id content_size_mm settings
        else settings
    | None => settings
    end) settings allPages.

(** [ConsoleBatch::setupPageLayout]. *)
Definition setupPageLayout (allPages : list PageId) (settings : S) : S :=
  foldl (λ settings page_id,
    match cliMargins cli with
    | Some margins => setHardMarginsMM api page_id margins settings
    | None => settings
    end) settings allPages.

(** The body of the loop of [setupOutput] between [getParams] and
    [setParams]: the overrides of the command line, in the order of the
    source. *)
Definition overrideParams (params : Params V) : Params V :=
  let params :=
    match cliOutputDpi cli with
    | Some dpi => setOutputDpi dpi params
    | None => params
    end in
  let params :=
    match cliColorMode cli with
    | Some color_mode =>
        let color_params := setColorMode V color_mode (colorParams params) in
        let params := setColorParams color_params params in
        if isMixed V color_mode then
          let splitting_options := splittingOptions params in
          let splitting_options :=
            match cliPictureShape cli with
            | Some shape =>
                setPictureShape V shape (setSplitOutput V true splitting_options)
            | None => splitting_options
            end in
          let splitting_options :=
            match cliSplittingOptions cli with
            | Some fromCli => fromCli splitting_options
            | None => splitting_options
            end in
          setSplittingOptions splitting_options params
        else params
    | None => params
    end in
  let params :=
    match cliWhiteMargins cli with
    | Some white_margins => setWhiteMargins white_margins params
    | None => params
    end in
  let params :=
    match cliNormalizeIllumination cli with
    | Some normalize => setNormalizeIllumination normalize params
    | None => params
    end in
  let params :=
    match cliThreshold cli with
    | Some threshold =>
        setBinarizationOptions
          (setThresholdAdjustment V threshold (binarizationOptions params)) params
    | None => params
    end in
  let params :=
    match cliDespeckleLevel cli with
    | Some despeckle_level => setDespeckleLevel despeckle_level params
    | None => params
    end in
  let params :=
    match cliDepthPerception cli with
    | Some depth_perception =>
        setDewarpingOptions
          (setDepthPerception V depth_perception (dewarpingOptions params)) params
    | None => params
    end in
  match cliDewarpingOptions cli with
  | Some fromCli => setDewarpingOptions (fromCli (dewarpingOptions params)) params
  | None => params
  end.

(** [ConsoleBatch::setupOutput]: every page's parameters are read,
    overridden and written back. *)
Definition setupOutput (allPages : list PageId) (settings : S) : S :=
  foldl (λ settings page_id,
    setParams api page_id (overrideParams (getParams api page_id settings)) settings)
    settings allPages.

(** [ConsoleBatch::setupFilter]; [allPages] is the [std::set] of page ids
    as the list of its elements in iteration order. *)
Definition setupFilter (idx : Z) (allPages : list PageId) (settings : S) : S :=
  if idx =? fixOrientationFilterIdx then setupFixOrientation allPages settings
  else if idx =? pageSplitFilterIdx then setupPageSplit allPages settings
  else if idx =? deskewFilterIdx then setupDeskew allPages settings
  else if idx =? selectContentFilterIdx then setupSelectContent allPages settings
  else if idx =? pageLayoutFilterIdx then setupPageLayout allPages settings
  else if idx =? outputFilterIdx then setupOutput allPages settings
  else settings.
End Functions.

(** A concrete instance: integers for every value class. *)
Definition plainValues : Values :=
  mkValues Z Z Z Z Z Z Z Z Z Z Z Z Z Z
    0 (λ r, (r + 1) `mod` 4) (λ r, (r - 1) `mod` 4)
    (λ size, size =? 0) (λ mode, mode =? 2)
    (λ mode _, mode) (λ split options, if split then options + 100 else options)
    (λ shape options, options + shape) (λ threshold _, threshold) (λ depth _, depth).

Definition plainParams : Params plainValues :=
  mkParams (V := plainValues) 600 0 0 false false 0 0 0.

(** Settings that hold the output parameters of the pages and nothing
    else; a page without a record has [plainParams]. *)
Definition outputOnlyApi : SettingsApi plainValues (gmap PageId (Params plainValues)) :=
  mkSettingsApi plainValues (gmap PageId (Params plainValues))
    (λ _ _ settings, settings) (λ _ settings, settings) (λ _ _ settings, settings)
    (λ _ settings, settings) (λ _ settings, settings) (λ _ _ settings, settings)
    (λ _ _ settings, settings) (λ _ _ settings, settings)
    (λ page_id settings, default plainParams (settings !! page_id))
    (λ page_id params settings, <[page_id := params]> settings).

(** A command line without any option. *)
Definition noOptions : CommandLine plainValues :=
  mkCommandLine plainValues None None None None 0 None None None None None None None
    None None None None.

(** A command line that asks for 300 dpi and a picture shape, without a
    colour mode. *)
Definition dpiAndShape : CommandLine plainValues :=
  mkCommandLine plainValues None None None None 0 None (Some 300) None (Some 7) None
    None None None None None None.

End Setup.

(** * Properties *)

(** ** Chains and their execution *)

(** Induction along the continuations of a chain. *)
Lemma Task_chain_ind (P : Task → Prop) :
  (∀ s p b d, P (MkTask s p None b d)) →
  (∀ s p t b d, P t → P (MkTask s p (Some t) b d)) →
  ∀ t, P t.
Proof.
  intros Hlast Hnext. fix IH 1.
  intros [s p [t|] b d]; [apply Hnext, IH | apply Hlast].
Qed.

Lemma forwardEvents_cons s stages p :
  forwardEvents (s :: stages) p = Begin s p :: Finish s p :: forwardEvents stages p.
Proof. reflexivity. Qed.

Lemma forwardEvents_app l1 l2 p :
  forwardEvents (l1 ++ l2) p = forwardEvents l1 p ++ forwardEvents l2 p.
Proof. unfold forwardEvents. apply bind_app. Qed.

Section ChainExecution.
Context {Data : Type} (env : Env Data).

Lemma createTask_creates s p next b d :
  creates env s p = true →
  createTask env s p next b d = Some (MkTask s p next b d).
Proof. unfold createTask. by intros ->. Qed.

Lemma createTask_null s p next b d :
  creates env s p = false → createTask env s p next b d = None.
Proof. unfold createTask. by intros ->. Qed.

(** Running a chain whose units all belong to page [p] is the forward
    execution of its stages. *)
Lemma runTask_runStages (p : PageId) (t : Task) :
  Forall (λ q, q = p) (chainPages t) →
  ∀ input, runTask env t input = runStages env (chainStages t) p input.
Proof.
  induction t as [s q b d | s q t b d IH] using Task_chain_ind;
    intros Hpages input; cbn in *.
  - apply Forall_cons_1 in Hpages as [-> _].
    by destruct (work env s p input).
  - apply Forall_cons_1 in Hpages as [-> Hpages].
    destruct (work env s p input); [| done..].
    by rewrite IH.
Qed.

(** The events of a forward execution are an initial segment of the
    begin/finish pairs of the stages, in order. *)
Lemma runStages_prefix stages p input :
  ∃ n, (runStages env stages p input).1 = take n (forwardEvents stages p).
Proof.
  revert input. induction stages as [| s rest IH]; intros input; cbn.
  - by exists 0%nat.
  - destruct (work env s p input) as [output | reason | e].
    + destruct (IH output) as [n Hn].
      destruct (runStages env rest p output) as [events result].
      exists (S (S n)). cbn in *. by rewrite Hn.
    + by exists 1%nat.
    + by exists 1%nat.
Qed.

Lemma runStages_app l1 l2 p input :
  runStages env (l1 ++ l2) p input =
  match runStages env l1 p input with
  | (events, ChainOk mid) =>
      let '(events', result) := runStages env l2 p mid in (events ++ events', result)
  | failed => failed
  end.
Proof.
  revert input. induction l1 as [| s rest IH]; intros input; cbn.
  - by destruct (runStages env l2 p input).
  - destruct (work env s p input) as [output | reason | e]; [| done..].
    rewrite IH. destruct (runStages env rest p output) as [events [mid | | | |]]; [| done..].
    by destruct (runStages env l2 p mid).
Qed.

(** A forward execution that succeeds ran every stage to completion. *)
Lemma runStages_ok_events stages p input events output :
  runStages env stages p input = (events, ChainOk output) →
  events = forwardEvents stages p.
Proof.
  revert input events.
  induction stages as [| s rest IH]; intros input events; cbn [runStages].
  - by intros [= <- _].
  - destruct (work env s p input) as [mid | reason | e]; [| done..].
    destruct (runStages env rest p mid) as [events' result] eqn:Hrest.
    intros [= <- ->]. rewrite forwardEvents_cons. do 2 f_equal. by eapply IH.
Qed.

(** When the stages before the last one succeed and the last one succeeds
    on what they hand over, every stage ran and the output of the last
    stage is the result. *)
Lemma runStages_snoc_ok stages s p input events mid output :
  runStages env stages p input = (events, ChainOk mid) →
  work env s p mid = Done output →
  runStages env (stages ++ [s]) p input
  = (forwardEvents (stages ++ [s]) p, ChainOk output).
Proof.
  intros Hstages Hwork. rewrite runStages_app, Hstages. cbn. rewrite Hwork.
  rewrite forwardEvents_app. by rewrite (runStages_ok_events _ _ _ _ _ Hstages).
Qed.

(** The backward walk over factories that all yield a task builds the
    chain of the stages 0..k, rooted in the fix-orientation task. *)
Lemma buildBackward_chain (p : PageId) (b : bool) (dbg : Stage → option bool) (k : nat) :
  (k ≤ 5)%nat →
  (∀ s, creates env s p = true) →
  ∃ root,
    buildBackward (λ s prev, createTask env s p prev b (dbg s)) (stagesDownFrom k) None
    = Some root
    ∧ taskStage root = FixOrientation
    ∧ chainStages root = stagesUpTo k
    ∧ chainPages root = replicate (S k) p.
Proof.
  intros Hk Hc.
  do 6 (destruct k as [| k];
    [cbn; rewrite !createTask_creates by done; eexists; split_and!; reflexivity |]).
  lia.
Qed.


(** A composite task around such a chain executes the stages forward. *)
Lemma runLoadFileTask_runPage kind page root stages :
  chainStages root = stages →
  Forall (λ q, q = page_id page) (chainPages root) →
  runLoadFileTask env (mkLoadFileTask kind page (Some root)) = runPage env stages page.
Proof.
  intros <- Hpages. unfold runLoadFileTask, runPage. cbn.
  destruct (loadImage env _); [| done].
  by rewrite (runTask_runStages (page_id page)).
Qed.
End ChainExecution.

(** ** The two builders *)

Section Builders.
Context {Settings Data : Type} (env : Env Data).

(** The baseline builder is the backward walk followed by its assertion. *)
Lemma baseline_build (this : Baseline.ConsoleBatch Settings) (page : PageInfo) (k : nat) :
  (k ≤ 5)%nat →
  let root :=
    buildBackward
      (λ s prev, createTask env s (page_id page) prev (Baseline.batch this)
                   (baselineDebugArg this k s))
      (stagesDownFrom k) None in
  (Baseline.createCompositeTask env this page (Z.of_nat k)).1
  = (_ ← asserted FixOrientation root; mret (mkLoadFileTask BATCH page root)).
Proof.
  intros Hk. destruct this as [b d pp st od].
  do 6 (destruct k as [| k]; [destruct b, d; reflexivity |]). lia.
Qed.

(** The optimized builder is the backward walk when no assertion fails. *)
Lemma optimized_build (page : PageInfo) (k : nat) (batch debug : bool) :
  (k ≤ 5)%nat →
  (∀ s, creates env s (page_id page) = true) →
  Optimized.createCompositeTask env page (Z.of_nat k) batch debug
  = Pass (mkLoadFileTask LOAD_IMAGE page
      (buildBackward
         (λ s prev, createTask env s (page_id page) prev batch (Some debug))
         (stagesDownFrom k) None)).
Proof.
  intros Hk Hc.
  do 6 (destruct k as [| k];
    [unfold Optimized.createCompositeTask, createTask; cbn; rewrite ?Hc; cbn;
     reflexivity |]).
  lia.
Qed.

(** C1.  For every page and every last stage index [k] in 0..5, when the
    stage factories yield tasks, both builders return a composite task
    whose chain is the result of walking from stage [k] down to stage 0
    with a null continuation for stage [k] and each built task as the
    continuation of the next lower stage.  Executing it is the forward
    execution of exactly the stages 0..k: the events are an initial
    segment of their begin/finish pairs in order, so no stage above [k]
    runs, and when every stage succeeds all of them run and the output
    of stage [k] is the final result. *)
Theorem C1_chain_runs_stages_through_k (this : Baseline.ConsoleBatch Settings)
    (page : PageInfo) (k : nat) (batch debug : bool) :
  (k ≤ 5)%nat →
  (∀ s, creates env s (page_id page) = true) →
  ∃ rootB rootO : Task,
    (Baseline.createCompositeTask env this page (Z.of_nat k)).1
      = Pass (mkLoadFileTask BATCH page (Some rootB))
    ∧ Optimized.createCompositeTask env page (Z.of_nat k) batch debug
      = Pass (mkLoadFileTask LOAD_IMAGE page (Some rootO))
    ∧ buildBackward
        (λ s prev, createTask env s (page_id page) prev (Baseline.batch this)
                     (baselineDebugArg this k s))
        (stagesDownFrom k) None = Some rootB
    ∧ buildBackward
        (λ s prev, createTask env s (page_id page) prev batch (Some debug))
        (stagesDownFrom k) None = Some rootO
    ∧ chainStages rootB = stagesUpTo k
    ∧ chainStages rootO = stagesUpTo k
    ∧ runLoadFileTask env (mkLoadFileTask BATCH page (Some rootB))
      = runPage env (stagesUpTo k) page
    ∧ runLoadFileTask env (mkLoadFileTask LOAD_IMAGE page (Some rootO))
      = runPage env (stagesUpTo k) page
    ∧ (∀ input, ∃ n,
         (runStages env (stagesUpTo k) (page_id page) input).1
         = take n (forwardEvents (stagesUpTo k) (page_id page)))
    ∧ (∀ input sk events mid output,
         allStages !! k = Some sk →
         runStages env (take k allStages) (page_id page) input = (events, ChainOk mid) →
         work env sk (page_id page) mid = Done output →
         runStages env (stagesUpTo k) (page_id page) input
         = (forwardEvents (stagesUpTo k) (page_id page), ChainOk output)).
Proof.
  intros Hk Hc.
  destruct (buildBackward_chain env (page_id page) (Baseline.batch this)
              (baselineDebugArg this k) k Hk Hc) as (rootB & HB & _ & HsB & HpB).
  destruct (buildBackward_chain env (page_id page) batch (λ _, Some debug) k Hk Hc)
    as (rootO & HO & _ & HsO & HpO).
  exists rootB, rootO. split_and!; try done.
  - rewrite baseline_build by done. cbn zeta. by rewrite HB.
  - rewrite optimized_build by done. by rewrite HO.
  - apply runLoadFileTask_runPage; [done |]. rewrite HpB. by apply Forall_replicate.
  - apply runLoadFileTask_runPage; [done |]. rewrite HpO. by apply Forall_replicate.
  - intros input. apply runStages_prefix.
  - intros input sk events mid output Hsk Hrun Hwork.
    unfold stagesUpTo. rewrite (take_S_r _ _ _ Hsk).
    by eapply runStages_snoc_ok.
Qed.
Lemma geb_true (k c : Z) : c ≤ k → (k >=? c) = true.
Proof. intros H. rewrite Z.geb_leb. by apply Z.leb_le. Qed.

(** Above the last stage both builders build the full chain. *)
Lemma baseline_build_above (this : Baseline.ConsoleBatch Settings) page (k : Z) :
  5 ≤ k →
  Baseline.createCompositeTask env this page k
  = Baseline.createCompositeTask env this page 5.
Proof.
  intros Hk. unfold Baseline.createCompositeTask.
  by rewrite !geb_true
    by (unfold outputFilterIdx, pageLayoutFilterIdx, selectContentFilterIdx,
          deskewFilterIdx, pageSplitFilterIdx, fixOrientationFilterIdx; lia).
Qed.

Lemma optimized_build_above page (k : Z) batch debug :
  5 ≤ k →
  Optimized.createCompositeTask env page k batch debug
  = Optimized.createCompositeTask env page 5 batch debug.
Proof.
  intros Hk. unfold Optimized.createCompositeTask.
  by rewrite !geb_true by lia.
Qed.

(** The baseline asserts on the root whatever the index is. *)
Lemma baseline_null_root_aborts (this : Baseline.ConsoleBatch Settings) page (k : Z) :
  creates env FixOrientation (page_id page) = false →
  (Baseline.createCompositeTask env this page k).1 = AssertionFailed FixOrientation.
Proof.
  intros Hnull. unfold Baseline.createCompositeTask.
  repeat destruct (k >=? _);
    rewrite ?(createTask_null env FixOrientation) by done; reflexivity.
Qed.

(** The optimized builder asserts on the root only inside its guard. *)
Lemma optimized_null_root_aborts page (k : Z) batch debug :
  0 ≤ k →
  creates env FixOrientation (page_id page) = false →
  ∃ s, Optimized.createCompositeTask env page k batch debug = AssertionFailed s.
Proof.
  intros Hk Hnull. unfold Optimized.createCompositeTask.
  rewrite (geb_true k 0) by done.
  repeat match goal with
  | |- context [asserted ?s ?t] =>
      destruct (asserted s t) as [? | ?] eqn:?; cbn; [| by eexists]
  | |- context [k >=? ?c] => destruct (k >=? c); cbn
  end.
  all: match goal with
       | H : asserted FixOrientation _ = Pass _ |- _ =>
           by rewrite createTask_null in H
       end.
Qed.

(** The debug flags of the chain the baseline builds. *)
Lemma baseline_debug_flags (this : Baseline.ConsoleBatch Settings) page (k : nat) :
  (k ≤ 5)%nat →
  (∀ s, creates env s (page_id page) = true) →
  ∃ root,
    (Baseline.createCompositeTask env this page (Z.of_nat k)).1
      = Pass (mkLoadFileTask BATCH page (Some root))
    ∧ chainDebugFlags root = (λ s, (s, baselineDebugArg this k s)) <$> stagesUpTo k.
Proof.
  intros Hk Hc. rewrite baseline_build by done. cbn zeta.
  do 6 (destruct k as [| k];
    [cbn; rewrite !createTask_creates by done; eexists; split; reflexivity |]).
  lia.
Qed.

(** In batch mode the baseline passes [debugFlag = true] to no stage. *)
Lemma baseline_batch_no_debug (this : Baseline.ConsoleBatch Settings) (k : nat) (s : Stage) :
  Baseline.batch this = true → baselineDebugArg this k s ≠ Some true.
Proof.
  intros Hb. unfold baselineDebugArg. rewrite Hb.
  destruct s; [done | rewrite andb_false_r; cbn; congruence ..].
Qed.

(** C2.  The debug flag is to be true for at most the first stage that
    executes.  The optimized builder hands its [debug] parameter to every
    factory unchanged: built with [debug = true] through the last stage,
    the chain of any page carries [debugFlag = true] in all six units of
    work, so the stages after the first one receive it too. *)
Theorem C2_optimized_debug_reaches_every_stage (page : PageInfo) :
  ∃ root,
    Optimized.createCompositeTask idealEnv page 5 true true
      = Pass (mkLoadFileTask LOAD_IMAGE page (Some root))
    ∧ chainDebugFlags root
      = [(FixOrientation, Some true); (PageSplit, Some true); (Deskew, Some true);
         (SelectContent, Some true); (PageLayout, Some true); (Output, Some true)].
Proof. eexists. split; reflexivity. Qed.


End Builders.

(** ** Logs *)

Lemma attempted_app l1 l2 : attempted (l1 ++ l2) = attempted l1 ++ attempted l2.
Proof. apply omap_app. Qed.

Lemma ranEvents_app l1 l2 : ranEvents (l1 ++ l2) = ranEvents l1 ++ ranEvents l2.
Proof. apply omap_app. Qed.

Lemma recordedFailures_app l1 l2 :
  recordedFailures (l1 ++ l2) = recordedFailures l1 ++ recordedFailures l2.
Proof. apply omap_app. Qed.

Lemma summaries_app l1 l2 : summaries (l1 ++ l2) = summaries l1 ++ summaries l2.
Proof. apply omap_app. Qed.

Lemma ranEvents_Ran events : ranEvents (Ran <$> events) = events.
Proof. induction events as [| e events IH]; [done |]. cbn. by f_equal. Qed.

Lemma attempted_Ran events : attempted (Ran <$> events) = [].
Proof. by induction events. Qed.

Lemma recordedFailures_Ran events : recordedFailures (Ran <$> events) = [].
Proof. by induction events. Qed.

Lemma summaries_Ran events : summaries (Ran <$> events) = [].
Proof. by induction events. Qed.

Create Rewrite HintDb log.
#[global] Hint Rewrite attempted_app ranEvents_app recordedFailures_app summaries_app
  ranEvents_Ran attempted_Ran recordedFailures_Ran summaries_Ran
  app_nil_r app_nil_l : log.

Ltac quiet_rewrite :=
  repeat match goal with
  | H : quiet _ |- _ => destruct H as (?Ha & ?Hr & ?Hf & ?Hs)
  end;
  autorewrite with log;
  repeat match goal with
  | H : attempted ?l = [] |- context [attempted ?l] => rewrite H
  | H : ranEvents ?l = [] |- context [ranEvents ?l] => rewrite H
  | H : recordedFailures ?l = [] |- context [recordedFailures ?l] => rewrite H
  | H : summaries ?l = [] |- context [summaries ?l] => rewrite H
  end;
  autorewrite with log.

Lemma length_filter_complement {A} (P : A → Prop) `{∀ x, Decision (P x)} (l : list A) :
  (length (filter (λ x, ¬ P x) l) + length (filter P l) = length l)%nat.
Proof.
  induction l as [| x l IH]; [done |].
  destruct (decide (P x)) as [HP | HP].
  - rewrite (filter_cons_True P), (filter_cons_False (λ x, ¬ P x)) by tauto.
    cbn. lia.
  - rewrite (filter_cons_False P), (filter_cons_True (λ x, ¬ P x)) by tauto.
    cbn. lia.
Qed.

(** ** The timing computations of the optimized unit *)

Lemma divisor_positive (processed : Z) : 1 ≤ Optimized.divisor processed.
Proof. unfold Optimized.divisor. lia. Qed.

Lemma checkedQuot_is_Some (n d : Z) : d ≠ 0 → is_Some (checkedQuot n d).
Proof. intros Hd. unfold checkedQuot. apply Z.eqb_neq in Hd as ->. eauto. Qed.

Lemma checkedDiv_is_Some (n : Q) (d : Z) : d ≠ 0 → is_Some (checkedDiv n d).
Proof. intros Hd. unfold checkedDiv. apply Z.eqb_neq in Hd as ->. eauto. Qed.

Lemma estimatedTotal_is_Some (elapsed total processed : Z) :
  is_Some (Optimized.estimatedTotal elapsed total processed).
Proof.
  apply checkedQuot_is_Some. pose proof (divisor_positive processed). lia.
Qed.

Lemma remainingTime_is_Some (elapsed total processed : Z) :
  is_Some (Optimized.remainingTime elapsed total processed).
Proof.
  unfold Optimized.remainingTime.
  destruct (estimatedTotal_is_Some elapsed total processed) as [t ->]. cbn. eauto.
Qed.

Lemma averageTime_is_Some (total_time processed : Z) :
  is_Some (Optimized.averageTime total_time processed).
Proof.
  apply checkedDiv_is_Some. pose proof (divisor_positive processed). lia.
Qed.

Lemma progressUpdate_quiet (processed total elapsed : Z) :
  total ≠ 0 →
  ∃ items, Optimized.progressUpdate processed total elapsed = Some items ∧ quiet items.
Proof.
  intros Htotal. unfold Optimized.progressUpdate.
  destruct (_ || _); [| by eexists].
  destruct (checkedDiv_is_Some (100 * inject_Z processed)%Q total Htotal) as [pr ->].
  destruct (remainingTime_is_Some elapsed total processed) as [rem ->].
  cbn. by eexists.
Qed.

(** ** The page loop of the optimized unit *)

Section OptimizedProcess.
Context {Data : Type} (env : Env Data).

Lemma runStages_result stages p input :
  match (runStages env stages p input).2 with
  | ChainOk _ | StageFailed _ _ | Threw _ => True
  | LoadFailed _ | NoRootTask => False
  end.
Proof.
  revert input. induction stages as [| s rest IH]; intros input; cbn; [done |].
  destruct (work env s p input) as [output | reason | e]; [| done..].
  specialize (IH output). by destruct (runStages env rest p output).
Qed.

(** A forward execution never ends for want of a root task. *)
Lemma runPage_rooted stages page : (runPage env stages page).2 ≠ NoRootTask.
Proof.
  unfold runPage. destruct (loadImage env _) as [data |]; [| done].
  pose proof (runStages_result stages (page_id page) data) as H.
  destruct (runStages env stages (page_id page) data) as [events []]; done.
Qed.

(** The events of a page: the load, then an initial segment of the
    begin/finish pairs of the stages in pipeline order. *)
Lemma runPage_prefix stages page :
  ∃ n, (runPage env stages page).1
       = Load (imageId (page_id page)) :: take n (forwardEvents stages (page_id page)).
Proof.
  unfold runPage. destruct (loadImage env _) as [data |]; [| by exists 0%nat].
  destruct (runStages_prefix env stages (page_id page) data) as [n Hn].
  destruct (runStages env stages (page_id page) data) as [events result].
  exists n. cbn in *. by rewrite Hn.
Qed.

(** Through the last stage the optimized builder yields the full chain. *)
Lemma optimized_full_task page debug :
  (∀ s, creates env s (page_id page) = true) →
  ∃ root,
    Optimized.createCompositeTask env page 5 true debug
      = Pass (mkLoadFileTask LOAD_IMAGE page (Some root))
    ∧ runLoadFileTask env (mkLoadFileTask LOAD_IMAGE page (Some root))
      = runPage env allStages page.
Proof.
  intros Hc.
  destruct (buildBackward_chain env (page_id page) true (λ _, Some debug) 5)
    as (root & Hroot & _ & Hstages & Hpages); [lia | done |].
  exists root. split.
  - etrans; [apply (optimized_build env page 5 true debug); [lia | done] |].
    by rewrite Hroot.
  - apply runLoadFileTask_runPage; [done |]. rewrite Hpages. by apply Forall_replicate.
Qed.

Lemma pageSucceeds_runPage this page :
  (∀ s, creates env s (page_id page) = true) →
  Optimized.pageSucceeds env this page = isOk (runPage env allStages page).2.
Proof.
  intros Hc. unfold Optimized.pageSucceeds.
  destruct (optimized_full_task page (Optimized.m_debug this) Hc) as (root & -> & ->).
  done.
Qed.

(** One iteration: the page is attempted, its task runs, and the page
    is either counted as processed or recorded as failed. *)
Lemma optimized_processPage this total processed tick page :
  total ≠ 0 →
  (∀ s, creates env s (page_id page) = true) →
  let ok := Optimized.pageSucceeds env this page in
  ∃ log,
    Optimized.processPage env this total processed tick page
      = (log, Optimized.Next (processed + (if ok then 1 else 0)))
    ∧ attempted log = [page]
    ∧ ranEvents log = (runPage env allStages page).1
    ∧ recordedFailures log = (if ok then [] else [page])
    ∧ summaries log = [].
Proof.
  intros Htotal Hc ok. subst ok. rewrite pageSucceeds_runPage by done.
  unfold Optimized.processPage.
  destruct (optimized_full_task page (Optimized.m_debug this) Hc) as (root & -> & ->).
  pose proof (runPage_rooted allStages page) as Hrooted.
  destruct (runPage env allStages page) as [events result]. cbn zeta.
  destruct (progressUpdate_quiet (processed + 1) total (elapsed env tick) Htotal)
    as (items1 & Hp1 & Hq1).
  destruct (progressUpdate_quiet processed total (elapsed env tick) Htotal)
    as (items0 & Hp0 & Hq0).
  destruct result as [output | path | s reason | e |]; cbn [isOk snd fst];
    rewrite ?Hp1, ?Hp0, ?Z.add_0_r; [.. | done];
    eexists; (split; [reflexivity |]); quiet_rewrite; done.
Qed.

Abbreviation succeeding this pages :=
  (filter (λ page, Optimized.pageSucceeds env this page) pages).
Abbreviation failing this pages :=
  (filter (λ page, ¬ Optimized.pageSucceeds env this page) pages).

(** The loop attempts every page in order, whatever the earlier pages
    did, and counts exactly the pages whose task succeeded. *)
Lemma optimized_processPages this total pages :
  total ≠ 0 →
  (∀ page s, page ∈ pages → creates env s (page_id page) = true) →
  ∀ processed tick,
  ∃ log,
    Optimized.processPages env this total processed tick pages
      = (log, Optimized.Next (processed + Z.of_nat (length (succeeding this pages))))
    ∧ attempted log = pages
    ∧ ranEvents log = pages ≫= (λ page, (runPage env allStages page).1)
    ∧ recordedFailures log = failing this pages
    ∧ summaries log = [].
Proof.
  intros Htotal. induction pages as [| page rest IH]; intros Hc processed tick.
  - exists []. cbn. rewrite Z.add_0_r. done.
  - destruct (optimized_processPage this total processed tick page Htotal)
      as (log1 & Hstep & Ha1 & Hr1 & Hf1 & Hs1).
    { intros s. apply Hc. by left. }
    cbn [Optimized.processPages]. rewrite Hstep.
    destruct (IH (λ page' s H, Hc page' s (list_elem_of_further _ _ _ H))
                (processed + (if Optimized.pageSucceeds env this page then 1 else 0))
                (S tick)) as (log2 & -> & Ha2 & Hr2 & Hf2 & Hs2).
    exists (log1 ++ log2). autorewrite with log.
    rewrite Ha1, Ha2, Hr1, Hr2, Hf1, Hf2, Hs1, Hs2. rewrite bind_cons.
    destruct (Optimized.pageSucceeds env this page) eqn:Hok.
    + rewrite (filter_cons_True _ page) by (rewrite Hok; cbn; tauto).
      rewrite (filter_cons_False (λ page, ¬ _) page) by (rewrite Hok; cbn; tauto).
      split_and!; try done.
      apply pair_equal_spec. split; [done |]. apply (f_equal Optimized.Next).
      cbn [length]. lia.
    + rewrite (filter_cons_False _ page) by (rewrite Hok; cbn; tauto).
      rewrite (filter_cons_True (λ page, ¬ _) page) by (rewrite Hok; cbn; tauto).
      split_and!; try done.
      apply pair_equal_spec. split; [done |]. apply (f_equal Optimized.Next). lia.
Qed.
End OptimizedProcess.

Lemma no_failing_iff {A} (f : A → bool) (l : list A) :
  length (filter (λ x, ¬ f x) l) = 0%nat ↔ ∀ x, x ∈ l → f x.
Proof.
  induction l as [| x l IH].
  - split; [intros _ y Hy; by apply not_elem_of_nil in Hy | done].
  - destruct (f x) eqn:Hx.
    + rewrite (filter_cons_False (λ x, ¬ f x) x) by (rewrite Hx; cbn; tauto).
      rewrite IH. split.
      * intros H y [-> | Hy]%elem_of_cons; [by rewrite Hx | by apply H].
      * intros H y Hy. apply H. by right.
    + rewrite (filter_cons_True (λ x, ¬ f x) x) by (rewrite Hx; cbn; tauto).
      split; [done |]. intros H. specialize (H x (list_elem_of_here _ _)).
      by rewrite Hx in H.
Qed.

Section OptimizedClaims.
Context {Data : Type} (env : Env Data).

Abbreviation failing this pages :=
  (filter (λ page, ¬ Optimized.pageSucceeds env this page) pages).

(** C4.  After the optimized [process] has attempted every page of the
    snapshot, it returns normally if and only if every page succeeded;
    otherwise it throws the failed-batch error, and in both cases the
    summary it wrote reports as failed the number of pages whose task did
    not succeed, which is the total minus the number processed, and each
    of these pages has a recorded failure. *)
Theorem C4_batch_exit_status (this : Optimized.ConsoleBatch) (catalog : ProjectPages) :
  Optimized.m_ptrPages this = Some catalog →
  Optimized.m_ptrStages this = true →
  (∀ page s, page ∈ toPageSequence catalog IMAGE_VIEW →
             creates env s (page_id page) = true) →
  let pages := toPageSequence catalog IMAGE_VIEW in
  let total := Z.of_nat (length pages) in
  let failed := Z.of_nat (length (failing this pages)) in
  let log := (Optimized.process env this).1 in
  let outcome := (Optimized.process env this).2 in
  attempted log = pages
  ∧ recordedFailures log = failing this pages
  ∧ (outcome = Returns ↔ ∀ page, page ∈ pages → Optimized.pageSucceeds env this page)
  ∧ (outcome ≠ Returns → outcome = Throws (StdException "Some pages failed to process"))
  ∧ (pages ≠ [] → summaryCounts log = Some (total, total - failed, failed)).
Proof.
  intros Hpages Hstages Hc pages total failed.
  unfold Optimized.process. rewrite Hpages, Hstages. fold pages. fold total.
  destruct (total =? 0) eqn:Htotal.
  { apply Z.eqb_eq in Htotal. subst total.
    destruct pages as [| page rest]; [| cbn in Htotal; lia].
    cbn. split_and!; try done. split; [intros _ page Hpage | done].
    by apply not_elem_of_nil in Hpage. }
  apply Z.eqb_neq in Htotal.
  destruct (optimized_processPages env this total pages Htotal Hc 0 0%nat)
    as (log & -> & Ha & Hr & Hf & Hs).
  destruct (averageTime_is_Some (elapsed env (length pages))
              (0 + Z.of_nat (length (filter
                 (λ page, Optimized.pageSucceeds env this page) pages))))
    as [avg ->].
  pose proof (length_filter_complement
                (λ page, Is_true (Optimized.pageSucceeds env this page)) pages) as Hsum.
  cbn beta in Hsum.
  pose proof (no_failing_iff (Optimized.pageSucceeds env this) pages) as Hnone.
  cbn zeta. cbn [fst snd].
  replace (Starting total :: log ++ [Summary total
      (0 + Z.of_nat (length (filter
         (λ page, Optimized.pageSucceeds env this page) pages)))
      (total - (0 + Z.of_nat (length (filter
         (λ page, Optimized.pageSucceeds env this page) pages))))
      (elapsed env (length pages)) avg])
    with ([Starting total] ++ log ++ [Summary total (total - failed) failed
                                        (elapsed env (length pages)) avg]).
  2: { cbn [app]. do 3 f_equal. subst total failed. f_equal; lia. }
  unfold summaryCounts. autorewrite with log. rewrite Ha, Hf, Hs.
  split_and!; try done.
  - destruct (_ <? _) eqn:Hlt.
    + apply Z.ltb_lt in Hlt. split; [done |]. intros Hall.
      apply Hnone in Hall. subst total. lia.
    + apply Z.ltb_ge in Hlt. split; [intros _ | done].
      apply Hnone. subst total. lia.
  - by destruct (_ <? _).
Qed.

Lemma optimized_processPage_divides this total processed tick page :
  total ≠ 0 →
  (Optimized.processPage env this total processed tick page).2
  ≠ Optimized.Stop DivisionByZero.
Proof.
  intros Htotal. unfold Optimized.processPage.
  destruct (Optimized.createCompositeTask env page 5 true _) as [task | s]; [| done].
  destruct (runLoadFileTask env task) as [events result]. cbn zeta.
  destruct (progressUpdate_quiet (processed + 1) total (elapsed env tick) Htotal)
    as (items1 & Hp1 & _).
  destruct (progressUpdate_quiet processed total (elapsed env tick) Htotal)
    as (items0 & Hp0 & _).
  destruct result; rewrite ?Hp1, ?Hp0; done.
Qed.

Lemma optimized_processPages_divides this total pages :
  total ≠ 0 →
  ∀ processed tick,
    (Optimized.processPages env this total processed tick pages).2
    ≠ Optimized.Stop DivisionByZero.
Proof.
  intros Htotal. induction pages as [| page rest IH]; intros processed tick; [done |].
  cbn [Optimized.processPages].
  pose proof (optimized_processPage_divides this total processed tick page Htotal) as H.
  destruct (Optimized.processPage env this total processed tick page)
    as [log [processed' | how]]; [| done].
  specialize (IH processed' (S tick)).
  by destruct (Optimized.processPages env this total processed' (S tick) rest).
Qed.

(** C10.  The divisor of the timing computations of the optimized
    [process] is at least one for every count of processed pages, zero
    included: the estimated total time, the remaining time and the
    average time per page are always defined, and no run of [process]
    ends in a division by zero. *)
Theorem C10_timing_never_divides_by_zero (this : Optimized.ConsoleBatch) :
  (∀ processed, 1 ≤ Optimized.divisor processed)
  ∧ (∀ elapsed total processed,
       is_Some (Optimized.estimatedTotal elapsed total processed)
       ∧ is_Some (Optimized.remainingTime elapsed total processed))
  ∧ (∀ total_time processed, is_Some (Optimized.averageTime total_time processed))
  ∧ (Optimized.process env this).2 ≠ DivisionByZero.
Proof.
  split_and!.
  - apply divisor_positive.
  - intros. split; [apply estimatedTotal_is_Some | apply remainingTime_is_Some].
  - apply averageTime_is_Some.
  - unfold Optimized.process.
    destruct (Optimized.m_ptrPages this) as [catalog |]; [| done].
    destruct (Optimized.m_ptrStages this); [| done].
    destruct (_ =? 0) eqn:Htotal; [done |]. apply Z.eqb_neq in Htotal.
    pose proof (optimized_processPages_divides this _
                  (toPageSequence catalog IMAGE_VIEW) Htotal 0 0%nat) as H.
    destruct (Optimized.processPages env this _ 0 0%nat _) as [log [processed | how]].
    + destruct (averageTime_is_Some
                  (elapsed env (length (toPageSequence catalog IMAGE_VIEW))) processed)
        as [avg ->].
      cbn. by destruct (_ <? _).
    + cbn in *. congruence.
Qed.
End OptimizedClaims.

(** ** The page loop of the baseline unit *)

Section BaselineProcess.
Context {Settings Data : Type} (env : Env Data).

Lemma announce_quiet (i n : Z) (page : PageInfo) :
  quiet (if isVerbose env
         then [Announce (i + 1) n (filePath (imageId (page_id page)))]
         else []).
Proof. by destruct (isVerbose env). Qed.

(** Through the last stage the baseline builder yields the full chain. *)
Lemma baseline_full_task (this : Baseline.ConsoleBatch Settings) page :
  (∀ s, creates env s (page_id page) = true) →
  ∃ root this',
    Baseline.createCompositeTask env this page lastFilterIdx
      = (Pass (mkLoadFileTask BATCH page (Some root)), this')
    ∧ runLoadFileTask env (mkLoadFileTask BATCH page (Some root))
      = runPage env allStages page.
Proof.
  intros Hc.
  destruct (buildBackward_chain env (page_id page) (Baseline.batch this)
              (baselineDebugArg this 5) 5)
    as (root & Hroot & _ & Hstages & Hpages); [lia | done |].
  pose proof (baseline_build env this page 5) as Hbuild.
  cbn zeta in Hbuild. rewrite Hroot in Hbuild.
  change (Z.of_nat 5) with lastFilterIdx in Hbuild.
  destruct (Baseline.createCompositeTask env this page lastFilterIdx)
    as [built this'].
  cbn in Hbuild. rewrite Hbuild by lia.
  exists root, this'. split; [done |].
  apply runLoadFileTask_runPage; [done |]. rewrite Hpages. by apply Forall_replicate.
Qed.

(** When no task throws, the loop attempts every page in order and
    returns. *)
Lemma baseline_processPages (num_pages : Z) pages :
  (∀ page s, page ∈ pages → creates env s (page_id page) = true) →
  (∀ page e, page ∈ pages → (runPage env allStages page).2 ≠ Threw e) →
  ∀ (this : Baseline.ConsoleBatch Settings) i,
  ∃ log this',
    Baseline.processPages env this num_pages i pages = (log, Returns, this')
    ∧ attempted log = pages
    ∧ ranEvents log = pages ≫= (λ page, (runPage env allStages page).1)
    ∧ recordedFailures log = [].
Proof.
  induction pages as [| page rest IH]; intros Hc Hquiet this i.
  - by exists [], this.
  - destruct (baseline_full_task this page) as (root & this' & Hbuild & Hrun).
    { intros s. apply Hc. by left. }
    cbn [Baseline.processPages]. rewrite Hbuild, Hrun.
    pose proof (runPage_rooted env allStages page) as Hrooted.
    pose proof (Hquiet page) as Hnothrow.
    destruct (runPage env allStages page) as [events result] eqn:Hpage.
    cbn in Hrooted, Hnothrow.
    destruct (IH (λ page' s H, Hc page' s (list_elem_of_further _ _ _ H))
                (λ page' e H, Hquiet page' e (list_elem_of_further _ _ _ H))
                this' (i + 1)) as (log' & this'' & Hrest & Ha & Hr & Hf).
    pose proof (announce_quiet i num_pages page) as Hannounce.
    destruct result as [output | path | s reason | e |];
      [| | | by destruct (Hnothrow e (list_elem_of_here _ _)) | done];
      rewrite Hrest; eexists _, this''; (split; [reflexivity |]);
      rewrite bind_cons;
      match goal with
      | |- context [Attempt page :: ?l ++ ?r] =>
          replace (Attempt page :: l ++ r) with ([Attempt page] ++ l ++ r) by done
      end;
      quiet_rewrite; rewrite ?Ha, ?Hr, ?Hf, ?Hpage; done.
Qed.

(** Whatever happens, the pages attempted are an initial segment of the
    snapshot: in its order, none twice, none skipped. *)
Lemma baseline_attempted_prefix (num_pages : Z) pages :
  ∀ (this : Baseline.ConsoleBatch Settings) i,
  ∃ n, attempted (Baseline.processPages env this num_pages i pages).1.1 = take n pages.
Proof.
  induction pages as [| page rest IH]; intros this i; [by exists 0%nat |].
  cbn [Baseline.processPages].
  pose proof (announce_quiet i num_pages page) as Hannounce.
  destruct (Baseline.createCompositeTask env this page lastFilterIdx)
    as [[task | s] this'].
  - destruct (runLoadFileTask env task) as [events result].
    destruct (IH this' (i + 1)) as [n Hn].
    destruct (Baseline.processPages env this' num_pages (i + 1) rest)
      as [[log' outcome] this''].
    cbn [fst] in Hn.
    destruct result; [exists (S n) | exists (S n) | exists (S n)
                      | exists 1%nat | exists 1%nat];
      cbn [fst snd];
      match goal with
      | |- context [Attempt page :: ?l ++ ?r] =>
          replace (Attempt page :: l ++ r) with ([Attempt page] ++ l ++ r) by done
      end;
      quiet_rewrite; rewrite ?Hn; done.
  - exists 1%nat. cbn [fst snd].
    match goal with
    | |- context [Attempt page :: ?l] =>
        replace (Attempt page :: l) with ([Attempt page] ++ l) by done
    end.
    quiet_rewrite. done.
Qed.

(** Both [process] functions are sequential loops over the snapshot.
    When the stage factories yield tasks, the optimized one attempts
    every page of its snapshot exactly once, in the snapshot's order, and
    the unit-of-work events of the run are the events of the pages one
    after the other; so does the baseline one when no task throws, and in
    every case the pages it attempted are an initial segment of its
    snapshot.  Within a page the events are the load followed by an
    initial segment of the begin/finish pairs of the stages in pipeline
    order. *)
Lemma loops_run_pages_in_sequence
    (thisB : Baseline.ConsoleBatch Settings) (thisO : Optimized.ConsoleBatch)
    (catalog : ProjectPages) :
  Baseline.m_ptrPages thisB = catalog →
  Optimized.m_ptrPages thisO = Some catalog →
  Optimized.m_ptrStages thisO = true →
  (∀ page s, creates env s (page_id page) = true) →
  let images := toPageSequence catalog IMAGE_VIEW in
  let pages := toPageSequence catalog PAGE_VIEW in
  let logO := (Optimized.process env thisO).1 in
  let logB := (Baseline.process env thisB).1.1 in
  attempted logO = images
  ∧ ranEvents logO = images ≫= (λ page, (runPage env allStages page).1)
  ∧ (∃ n, attempted logB = take n pages)
  ∧ ((∀ page e, page ∈ pages → (runPage env allStages page).2 ≠ Threw e) →
       (Baseline.process env thisB).1.2 = Returns
       ∧ attempted logB = pages
       ∧ ranEvents logB = pages ≫= (λ page, (runPage env allStages page).1))
  ∧ (∀ page, ∃ n,
       (runPage env allStages page).1
       = Load (imageId (page_id page))
         :: take n (forwardEvents allStages (page_id page))).
Proof.
  intros HpB HpO HsO Hc images pages. split_and!.
  - unfold Optimized.process. rewrite HpO, HsO. fold images.
    destruct (_ =? 0) eqn:Htotal.
    { apply Z.eqb_eq in Htotal. by destruct images. }
    apply Z.eqb_neq in Htotal.
    destruct (optimized_processPages env thisO _ images Htotal (λ page s _, Hc page s)
                0 0%nat) as (log & -> & Ha & _).
    destruct (averageTime_is_Some (elapsed env (length images))
                (0 + Z.of_nat (length (filter
                   (λ page, Optimized.pageSucceeds env thisO page) images))))
      as [avg ->].
    cbn [fst].
    match goal with
    | |- context [Starting ?t :: ?l ++ ?r] =>
        replace (Starting t :: l ++ r) with ([Starting t] ++ l ++ r) by done
    end.
    autorewrite with log. by rewrite Ha.
  - unfold Optimized.process. rewrite HpO, HsO. fold images.
    destruct (_ =? 0) eqn:Htotal.
    { apply Z.eqb_eq in Htotal. by destruct images. }
    apply Z.eqb_neq in Htotal.
    destruct (optimized_processPages env thisO _ images Htotal (λ page s _, Hc page s)
                0 0%nat) as (log & -> & _ & Hr & _).
    destruct (averageTime_is_Some (elapsed env (length images))
                (0 + Z.of_nat (length (filter
                   (λ page, Optimized.pageSucceeds env thisO page) images))))
      as [avg ->].
    cbn [fst].
    match goal with
    | |- context [Starting ?t :: ?l ++ ?r] =>
        replace (Starting t :: l ++ r) with ([Starting t] ++ l ++ r) by done
    end.
    autorewrite with log. by rewrite Hr.
  - unfold Baseline.process. rewrite HpB. apply baseline_attempted_prefix.
  - intros Hquiet. unfold Baseline.process. rewrite HpB. fold pages.
    destruct (baseline_processPages (Z.of_nat (length pages)) pages
                (λ page s _, Hc page s) Hquiet thisB 0)
      as (log & this' & -> & Ha & Hr & _).
    done.
  - intros page. apply runPage_prefix.
Qed.
End BaselineProcess.

(** ** A build that yields no root task *)

Section MissingRoot.
Context {Settings Data : Type} (env : Env Data).

(** The optimized loop up to a page whose build fails its assertion. *)
Lemma optimized_processPages_until_abort this total before page after :
  total ≠ 0 →
  (∀ q s, q ∈ before → creates env s (page_id q) = true) →
  creates env FixOrientation (page_id page) = false →
  ∀ processed tick,
  ∃ log,
    Optimized.processPages env this total processed tick (before ++ page :: after)
      = (log, Optimized.Stop Aborts)
    ∧ attempted log = before ++ [page]
    ∧ recordedFailures log
      = filter (λ q, ¬ Optimized.pageSucceeds env this q) before
    ∧ summaries log = [].
Proof.
  intros Htotal Hc Hnull. revert Hc.
  induction before as [| q before IH]; intros Hc processed tick.
  - destruct (optimized_null_root_aborts env page 5 true (Optimized.m_debug this))
      as [s Hs]; [lia | done |].
    cbn [app Optimized.processPages]. unfold Optimized.processPage. rewrite Hs.
    eexists. split; [reflexivity |]. done.
  - destruct (optimized_processPage env this total processed tick q Htotal)
      as (log1 & Hstep & Ha1 & _ & Hf1 & Hs1).
    { intros s. apply Hc. by left. }
    cbn [app Optimized.processPages]. rewrite Hstep.
    destruct (IH (λ q' s H, Hc q' s (list_elem_of_further _ _ _ H))
                (processed + (if Optimized.pageSucceeds env this q then 1 else 0))
                (S tick)) as (log2 & -> & Ha2 & Hf2 & Hs2).
    exists (log1 ++ log2). autorewrite with log.
    rewrite Ha1, Ha2, Hf1, Hf2, Hs1, Hs2.
    split_and!; try done.
    destruct (Optimized.pageSucceeds env this q) eqn:Hok.
    + by rewrite (filter_cons_False (λ q, ¬ _) q) by (rewrite Hok; cbn; tauto).
    + by rewrite (filter_cons_True (λ q, ¬ _) q) by (rewrite Hok; cbn; tauto).
Qed.

(** The baseline loop up to a page whose build fails its assertion. *)
Lemma baseline_processPages_until_abort (num_pages : Z) before page after :
  (∀ q s, q ∈ before → creates env s (page_id q) = true) →
  (∀ q e, q ∈ before → (runPage env allStages q).2 ≠ Threw e) →
  creates env FixOrientation (page_id page) = false →
  ∀ (this : Baseline.ConsoleBatch Settings) i,
  ∃ log this',
    Baseline.processPages env this num_pages i (before ++ page :: after)
      = (log, Aborts, this')
    ∧ attempted log = before ++ [page]
    ∧ recordedFailures log = [].
Proof.
  intros Hc Hquiet Hnull. revert Hc Hquiet.
  induction before as [| q before IH]; intros Hc Hquiet this i.
  - pose proof (baseline_null_root_aborts env this page lastFilterIdx Hnull) as Hb.
    cbn [app Baseline.processPages].
    destruct (Baseline.createCompositeTask env this page lastFilterIdx)
      as [built this'].
    cbn in Hb. subst built.
    pose proof (announce_quiet env i num_pages page) as Hannounce.
    eexists _, this'. split; [reflexivity |].
    match goal with
    | |- context [Attempt page :: ?l] =>
        replace (Attempt page :: l) with ([Attempt page] ++ l) by done
    end.
    quiet_rewrite. done.
  - destruct (baseline_full_task env this q) as (root & this' & Hbuild & Hrun).
    { intros s. apply Hc. by left. }
    cbn [app Baseline.processPages]. rewrite Hbuild, Hrun.
    pose proof (runPage_rooted env allStages q) as Hrooted.
    pose proof (Hquiet q) as Hnothrow.
    destruct (runPage env allStages q) as [events result].
    cbn in Hrooted, Hnothrow.
    destruct (IH (λ q' s H, Hc q' s (list_elem_of_further _ _ _ H))
                (λ q' e H, Hquiet q' e (list_elem_of_further _ _ _ H))
                this' (i + 1)) as (log' & this'' & Hrest & Ha & Hf).
    pose proof (announce_quiet env i num_pages q) as Hannounce.
    destruct result as [output | path | s reason | e' |];
      [| | | by destruct (Hnothrow e' (list_elem_of_here _ _)) | done];
      rewrite Hrest; eexists _, this''; (split; [reflexivity |]);
      match goal with
      | |- context [Attempt q :: ?l ++ ?r] =>
          replace (Attempt q :: l ++ r) with ([Attempt q] ++ l ++ r) by done
      end;
      quiet_rewrite; rewrite ?Ha, ?Hf; done.
Qed.

(** C5.  With assertions compiled in, for every page and every last stage
    index from 0 up: when the last backward step, the call of the
    fix-orientation factory, yields no task, both builders fail their
    assertion, which aborts the program.  In [process] this ends the run at
    that page: the outcome is the abort, the page and the pages before it
    are the only ones attempted (no page is retried, none after it is
    started), the optimized unit writes no summary, and the failures
    recorded are those of the earlier pages alone, so the missing root is
    never recorded as the failure of a page. *)
Theorem C5_missing_root_is_fatal
    (thisB : Baseline.ConsoleBatch Settings) (thisO : Optimized.ConsoleBatch)
    (page : PageInfo) (k : Z) (batch debug : bool) :
  0 ≤ k →
  creates env FixOrientation (page_id page) = false →
  (Baseline.createCompositeTask env thisB page k).1 = AssertionFailed FixOrientation
  ∧ (∃ s, Optimized.createCompositeTask env page k batch debug = AssertionFailed s)
  ∧ (∀ catalog before after,
       Optimized.m_ptrPages thisO = Some catalog →
       Optimized.m_ptrStages thisO = true →
       toPageSequence catalog IMAGE_VIEW = before ++ page :: after →
       (∀ q s, q ∈ before → creates env s (page_id q) = true) →
       (Optimized.process env thisO).2 = Aborts
       ∧ attempted (Optimized.process env thisO).1 = before ++ [page]
       ∧ recordedFailures (Optimized.process env thisO).1
         = filter (λ q, ¬ Optimized.pageSucceeds env thisO q) before
       ∧ summaries (Optimized.process env thisO).1 = [])
  ∧ (∀ before after,
       toPageSequence (Baseline.m_ptrPages thisB) PAGE_VIEW = before ++ page :: after →
       (∀ q s, q ∈ before → creates env s (page_id q) = true) →
       (∀ q e, q ∈ before → (runPage env allStages q).2 ≠ Threw e) →
       (Baseline.process env thisB).1.2 = Aborts
       ∧ attempted (Baseline.process env thisB).1.1 = before ++ [page]
       ∧ recordedFailures (Baseline.process env thisB).1.1 = []).
Proof.
  intros Hk Hnull. split_and!.
  - by apply baseline_null_root_aborts.
  - by apply optimized_null_root_aborts.
  - intros catalog before after HpO HsO Hpages Hc.
    unfold Optimized.process. rewrite HpO, HsO, Hpages.
    destruct (_ =? 0) eqn:Htotal.
    { apply Z.eqb_eq in Htotal. rewrite length_app in Htotal. cbn in Htotal. lia. }
    apply Z.eqb_neq in Htotal.
    destruct (optimized_processPages_until_abort thisO _ before page after
                Htotal Hc Hnull 0 0%nat) as (log & -> & Ha & Hf & Hs).
    cbn [fst snd].
    replace (Starting (Z.of_nat (length (before ++ page :: after))) :: log)
      with ([Starting (Z.of_nat (length (before ++ page :: after)))] ++ log) by done.
    autorewrite with log. rewrite Ha, Hf, Hs. done.
  - intros before after Hpages Hc Hquiet.
    unfold Baseline.process. rewrite Hpages.
    destruct (baseline_processPages_until_abort
                (Z.of_nat (length (before ++ page :: after)))
                before page after Hc Hquiet Hnull thisB 0)
      as (log & this' & -> & Ha & Hf).
    done.
Qed.
End MissingRoot.

(** ** Failures at the page boundary *)

(** C3.  A failure of one page is to be caught at the page boundary,
    recorded, and the remaining pages attempted.  On a two-page catalog
    whose first page makes the deskew computation throw, the baseline
    [process] lets the exception escape: the second page is never
    attempted and no failure is recorded.  The optimized [process], on the
    same input, records the failure of the first page, attempts the second
    one and reports the failed batch at the end. *)
Theorem C3_baseline_exception_ends_batch :
  let baseline := (Baseline.process throwingEnv (baselineBatch [page1; page2])).1 in
  let optimized := Optimized.process throwingEnv (optimizedBatch false [page1; page2]) in
  attempted baseline.1 = [page1]
  ∧ recordedFailures baseline.1 = []
  ∧ baseline.2 = Throws (StdException "bad allocation")
  ∧ attempted optimized.1 = [page1; page2]
  ∧ recordedFailures optimized.1 = [page1]
  ∧ optimized.2 = Throws (StdException "Some pages failed to process").
Proof. vm_compute. by split_and!. Qed.

(** C7.  Every page of the snapshot is to be processed exactly once, in
    order.  On the two-page catalog whose first page makes the deskew
    computation throw, the baseline [process] stops inside the first page:
    the second page is never attempted, and the only events of the run are
    those of the first page up to the beginning of its deskew stage.  The
    optimized [process], on the same input, goes through both pages in
    order, the events of the second page following those of the first. *)
Theorem C7_baseline_leaves_pages_unprocessed :
  let baseline := (Baseline.process throwingEnv (baselineBatch [page1; page2])).1 in
  let optimized := Optimized.process throwingEnv (optimizedBatch false [page1; page2]) in
  toPageSequence (Baseline.m_ptrPages (baselineBatch [page1; page2])) PAGE_VIEW
    = [page1; page2]
  ∧ attempted baseline.1 = [page1]
  ∧ ranEvents baseline.1
    = Load (imageId (page_id page1))
      :: forwardEvents [FixOrientation; PageSplit] (page_id page1)
      ++ [Begin Deskew (page_id page1)]
  ∧ attempted optimized.1 = [page1; page2]
  ∧ ranEvents optimized.1
    = (Load (imageId (page_id page1))
       :: forwardEvents [FixOrientation; PageSplit] (page_id page1)
       ++ [Begin Deskew (page_id page1)])
      ++ (Load (imageId (page_id page2)) :: forwardEvents allStages (page_id page2)).
Proof. vm_compute. by split_and!. Qed.

(** The baseline does not record a computation error either, although the
    loop goes on: with a missing source file every page is attempted and
    the run returns as if nothing had failed. *)
Lemma baseline_drops_computation_error :
  let baseline := (Baseline.process missingFileEnv (baselineBatch [page1; page2; page3])).1 in
  attempted baseline.1 = [page1; page2; page3]
  ∧ recordedFailures baseline.1 = []
  ∧ baseline.2 = Returns.
Proof. vm_compute. by split_and!. Qed.

(** A failed assertion ends the run and is not recorded as the failure of
    a page: when the factory of the output stage yields no task, the
    optimized [process] aborts on the first page. *)
Lemma optimized_assertion_aborts_run :
  let run := Optimized.process noOutputEnv (optimizedBatch false [page1; page2]) in
  run.2 = Aborts ∧ attempted run.1 = [page1] ∧ recordedFailures run.1 = [].
Proof. vm_compute. by split_and!. Qed.

(** ** Construction from a project file *)

Lemma unreadable_project_is_fatal {Settings : Type} (initial_debug : bool) :
  is_Some (match Baseline.newConsoleBatch (Settings := Settings) Unreadable with
           | RuntimeError what => Some what | _ => None end)
  ∧ is_Some (match Optimized.newConsoleBatch initial_debug Unreadable with
             | RuntimeError what => Some what | _ => None end).
Proof. split; eexists; reflexivity. Qed.

Lemma malformed_project_is_fatal {Settings : Type} (initial_debug : bool) :
  is_Some (match Baseline.newConsoleBatch (Settings := Settings) Malformed with
           | RuntimeError what => Some what | _ => None end)
  ∧ is_Some (match Optimized.newConsoleBatch initial_debug Malformed with
             | RuntimeError what => Some what | _ => None end).
Proof. split; eexists; reflexivity. Qed.

Lemma baseline_requires_output_directory {Settings : Type} pages relinker :
  Baseline.newConsoleBatch (Settings := Settings) (Document pages "" relinker)
  = RuntimeError "Output directory is not set.".
Proof. reflexivity. Qed.

(** A constructor that throws ends the run before any page is attempted. *)
Lemma runProject_fatal {A : Type} (construct : ProjectFile → Constructed A)
    (process : A → list LogItem * Outcome) project_file what :
  construct project_file = RuntimeError what →
  runProject construct process project_file = ([], Throws (StdException what)).
Proof. unfold runProject. by intros ->. Qed.

(** C6.  For every project file that cannot be opened, whose document is
    not well-formed, or whose document names no output directory,
    constructing the object raises an error and the run ends before any
    page is attempted.  The baseline constructor tests the three cases
    itself; the optimized constructor tests the first two itself and
    relies for the third on the reader, which by its contract fails when
    the output directory is missing. *)
Theorem C6_unusable_project_file_is_fatal {Settings Data : Type} (env : Env Data)
    (reader_error : string) (initial_debug : bool) (project_file : ProjectFile) :
  project_file = Unreadable ∨ project_file = Malformed
  ∨ (∃ pages relinker, project_file = Document pages "" relinker) →
  ∃ whatB whatO,
    Baseline.newConsoleBatch (Settings := Settings) project_file = RuntimeError whatB
    ∧ SpecReader.newConsoleBatch reader_error initial_debug project_file
      = RuntimeError whatO
    ∧ runProject (Baseline.newConsoleBatch (Settings := Settings))
        (λ this, (Baseline.process env this).1) project_file
      = ([], Throws (StdException whatB))
    ∧ runProject (SpecReader.newConsoleBatch reader_error initial_debug)
        (Optimized.process env) project_file
      = ([], Throws (StdException whatO)).
Proof.
  intros [-> | [-> | (pages & relinker & ->)]];
    eexists _, _; split_and!; reflexivity.
Qed.

(** ** Relinking *)


(** * Instances *)

Lemma C1_witness :
  ∃ rootB rootO : Task,
    (Baseline.createCompositeTask idealEnv (baselineBatch [page1]) page1 2).1
      = Pass (mkLoadFileTask BATCH page1 (Some rootB))
    ∧ Optimized.createCompositeTask idealEnv page1 2 true false
      = Pass (mkLoadFileTask LOAD_IMAGE page1 (Some rootO))
    ∧ chainStages rootB = [FixOrientation; PageSplit; Deskew]
    ∧ chainStages rootO = [FixOrientation; PageSplit; Deskew]
    ∧ runLoadFileTask idealEnv (mkLoadFileTask LOAD_IMAGE page1 (Some rootO))
      = (Load (imageId (page_id page1))
           :: forwardEvents [FixOrientation; PageSplit; Deskew] (page_id page1),
         ChainOk [FixOrientation; PageSplit; Deskew]).
Proof.
  destruct (C1_chain_runs_stages_through_k idealEnv (baselineBatch [page1]) page1 2
              true false)
    as (rootB & rootO & HB & HO & _ & _ & HsB & HsO & _ & HrO & _);
    [lia | reflexivity |].
  exists rootB, rootO. split_and!; [exact HB | exact HO | exact HsB | exact HsO |].
  rewrite HrO. reflexivity.
Defined.

Lemma C4_witness :
  let run := Optimized.process missingFileEnv
               (optimizedBatch false [page1; page2; page3]) in
  attempted run.1 = [page1; page2; page3]
  ∧ recordedFailures run.1 = [page2]
  ∧ run.2 = Throws (StdException "Some pages failed to process")
  ∧ summaryCounts run.1 = Some (3, 2, 1).
Proof.
  destruct (C4_batch_exit_status missingFileEnv
              (optimizedBatch false [page1; page2; page3])
              (catalogOf [page1; page2; page3]) eq_refl eq_refl)
    as (Ha & Hf & Hret & Hthrow & Hsum); [reflexivity |].
  cbn zeta. split_and!.
  - exact Ha.
  - rewrite Hf. reflexivity.
  - apply Hthrow. vm_compute. discriminate.
  - rewrite Hsum; [reflexivity | discriminate].
Defined.

Lemma C5_witness :
  (Baseline.createCompositeTask noRootEnv (baselineBatch [page1; page2; page3])
     page2 5).1 = AssertionFailed FixOrientation
  ∧ (∃ s, Optimized.createCompositeTask noRootEnv page2 5 true false
          = AssertionFailed s)
  ∧ (Optimized.process noRootEnv (optimizedBatch false [page1; page2; page3])).2
    = Aborts
  ∧ attempted (Optimized.process noRootEnv
                 (optimizedBatch false [page1; page2; page3])).1
    = [page1; page2]
  ∧ recordedFailures (Optimized.process noRootEnv
                        (optimizedBatch false [page1; page2; page3])).1 = []
  ∧ (Baseline.process noRootEnv (baselineBatch [page1; page2; page3])).1.2 = Aborts
  ∧ attempted (Baseline.process noRootEnv (baselineBatch [page1; page2; page3])).1.1
    = [page1; page2]
  ∧ recordedFailures
      (Baseline.process noRootEnv (baselineBatch [page1; page2; page3])).1.1 = [].
Proof.
  destruct (C5_missing_root_is_fatal noRootEnv
              (baselineBatch [page1; page2; page3])
              (optimizedBatch false [page1; page2; page3]) page2 5 true false)
    as (HB & HO & HpO & HpB); [lia | reflexivity |].
  destruct (HpO (catalogOf [page1; page2; page3]) [page1] [page3]
              eq_refl eq_refl eq_refl) as (HoO & HaO & HfO & _).
  { intros q s Hq. apply list_elem_of_singleton in Hq as ->. by destruct s. }
  destruct (HpB [page1] [page3] eq_refl) as (HoB & HaB & HfB).
  { intros q s Hq. apply list_elem_of_singleton in Hq as ->. by destruct s. }
  { intros q e Hq. apply list_elem_of_singleton in Hq as ->. vm_compute. discriminate. }
  split_and!; [exact HB | exact HO | exact HoO | exact HaO | | exact HoB | exact HaB
              | exact HfB].
  rewrite HfO. reflexivity.
Defined.

Lemma C6_witness :
  ∃ whatB whatO,
    Baseline.newConsoleBatch (Settings := unit) projectWithoutOutputDirectory
      = RuntimeError whatB
    ∧ SpecReader.newConsoleBatch "Output directory is missing" false
        projectWithoutOutputDirectory = RuntimeError whatO
    ∧ runProject (Baseline.newConsoleBatch (Settings := unit))
        (λ this, (Baseline.process idealEnv this).1) projectWithoutOutputDirectory
      = ([], Throws (StdException whatB))
    ∧ runProject (SpecReader.newConsoleBatch "Output directory is missing" false)
        (Optimized.process idealEnv) projectWithoutOutputDirectory
      = ([], Throws (StdException whatO)).
Proof.
  apply (C6_unusable_project_file_is_fatal (Settings := unit) idealEnv
           "Output directory is missing" false projectWithoutOutputDirectory).
  right. right. eexists _, _. reflexivity.
Defined.





(** * Further properties of the two units *)

(** ** The builders *)

Lemma geb_false (k c : Z) : k < c → (k >=? c) = false.
Proof. intros H. rewrite Z.geb_leb. by apply Z.leb_gt. Qed.

Section BuilderProperties.
Context {Settings Data : Type} (env : Env Data).

(** X1.  The baseline builder leaves every member but [debug] as it was,
    and the member [debug] survives a call only if it was set, the object
    is not in batch mode and the index is negative (no factory is called):
    once a chain has been built, no later chain receives a debug flag. *)
Theorem baseline_builder_clears_debug (this : Baseline.ConsoleBatch Settings)
    (page : PageInfo) (k : Z) :
  let this' := (Baseline.createCompositeTask env this page k).2 in
  Baseline.batch this' = Baseline.batch this
  ∧ Baseline.m_ptrPages this' = Baseline.m_ptrPages this
  ∧ Baseline.m_ptrStages this' = Baseline.m_ptrStages this
  ∧ Baseline.outputDirectory this' = Baseline.outputDirectory this
  ∧ Baseline.debug this'
    = Baseline.debug this && negb (Baseline.batch this) && (k <? 0).
Proof.
  destruct this as [b d pp st od]. unfold Baseline.createCompositeTask.
  unfold outputFilterIdx, pageLayoutFilterIdx, selectContentFilterIdx, deskewFilterIdx,
    pageSplitFilterIdx, fixOrientationFilterIdx.
  destruct (k <? 0) eqn:Hneg.
  - apply Z.ltb_lt in Hneg. rewrite !geb_false by lia. cbn. by destruct b, d.
  - apply Z.ltb_ge in Hneg. rewrite (geb_true k 0) by lia.
    repeat destruct (k >=? _); cbn; by rewrite !andb_false_r.
Qed.

(** X2.  An index above the last stage is treated as the last stage: both
    builders return what they return for index 5. *)
Theorem builders_saturate_above_last_stage (this : Baseline.ConsoleBatch Settings)
    (page : PageInfo) (k : Z) (batch debug : bool) :
  5 ≤ k →
  Baseline.createCompositeTask env this page k
    = Baseline.createCompositeTask env this page 5
  ∧ Optimized.createCompositeTask env page k batch debug
    = Optimized.createCompositeTask env page 5 batch debug.
Proof.
  intros Hk. split.
  - by apply baseline_build_above.
  - by apply optimized_build_above.
Qed.

(** X3.  For every index from 0 up, whenever the fix-orientation factory
    yields a task, the baseline builder returns a BATCH LoadFileTask for
    the page it was asked for, rooted in that fix-orientation unit of
    work, which was created for the page with the object's batch flag and
    without a debug flag, whatever the factories of the other stages
    yield.  The one assertion of the builder holds here, so this does not
    depend on assertions being compiled in. *)
Theorem baseline_task_is_rooted (this : Baseline.ConsoleBatch Settings)
    (page : PageInfo) (k : Z) :
  0 ≤ k →
  creates env FixOrientation (page_id page) = true →
  ∃ next,
    (Baseline.createCompositeTask env this page k).1
    = Pass (mkLoadFileTask BATCH page
              (Some (MkTask FixOrientation (page_id page) next
                       (Baseline.batch this) None))).
Proof.
  intros Hk Hc. unfold Baseline.createCompositeTask.
  unfold outputFilterIdx, pageLayoutFilterIdx, selectContentFilterIdx, deskewFilterIdx,
    pageSplitFilterIdx, fixOrientationFilterIdx.
  rewrite (geb_true k 0) by done.
  repeat destruct (k >=? _);
    rewrite (createTask_creates env FixOrientation) by done; cbn; eauto.
Qed.

(** X4.  With assertions compiled in (a failed assertion aborts, and the
    builder then returns nothing): a composite task the optimized builder
    returns is a LOAD_IMAGE LoadFileTask for the page it was asked for;
    for a negative index it has no root; for an index from 0 up, when the
    fix-orientation factory yields a task, its root is that
    fix-orientation unit of work, created for the page with the builder's
    two flags. *)
Theorem optimized_task_root (page : PageInfo) (k : Z) (batch debug : bool)
    (task : LoadFileTask) :
  Optimized.createCompositeTask env page k batch debug = Pass task →
  lf_page task = page
  ∧ lf_kind task = LOAD_IMAGE
  ∧ (k < 0 → lf_next task = None)
  ∧ (0 ≤ k → creates env FixOrientation (page_id page) = true →
     ∃ next, lf_next task
             = Some (MkTask FixOrientation (page_id page) next batch (Some debug))).
Proof.
  unfold Optimized.createCompositeTask.
  destruct (k >=? 0) eqn:Hk.
  - apply Z.geb_le in Hk.
    repeat match goal with
    | |- context [asserted ?s ?t] =>
        destruct (asserted s t) as [? | ?] eqn:?; cbn; [| done]
    | |- context [k >=? ?c] => destruct (k >=? c); cbn
    end.
    all: intros [= <-]; cbn.
    all: split_and!; [done | done | lia |]; intros _ Hc.
    all: match goal with
         | H : asserted FixOrientation _ = Pass _ |- _ =>
             rewrite (createTask_creates env FixOrientation) in H by done;
             cbn in H; injection H as <-
         end.
    all: eauto.
  - assert (k < 0) as Hneg by (rewrite Z.geb_leb in Hk; by apply Z.leb_gt in Hk).
    rewrite !geb_false by lia. cbn. intros [= <-]. cbn.
    split_and!; [done | done | done | lia].
Qed.
End BuilderProperties.

Lemma baseline_task_is_rooted_witness :
  ∃ next,
    (Baseline.createCompositeTask noOutputEnv (baselineBatch [page1]) page1 5).1
    = Pass (mkLoadFileTask BATCH page1
              (Some (MkTask FixOrientation (page_id page1) next true None))).
Proof.
  apply (baseline_task_is_rooted noOutputEnv (baselineBatch [page1]) page1 5);
    [lia | reflexivity].
Defined.

Lemma optimized_task_root_witness :
  ∃ next,
    lf_next (mkLoadFileTask LOAD_IMAGE page1
               (Some (MkTask FixOrientation (page_id page1) None true (Some false))))
    = Some (MkTask FixOrientation (page_id page1) next true (Some false)).
Proof.
  destruct (optimized_task_root idealEnv page1 0 true false
              (mkLoadFileTask LOAD_IMAGE page1
                 (Some (MkTask FixOrientation (page_id page1) None true (Some false)))))
    as (_ & _ & _ & Hroot); [reflexivity |].
  apply Hroot; [lia | reflexivity].
Defined.

Lemma builders_saturate_witness :
  Baseline.createCompositeTask idealEnv (baselineBatch [page1]) page1 9
    = Baseline.createCompositeTask idealEnv (baselineBatch [page1]) page1 5
  ∧ Optimized.createCompositeTask idealEnv page1 9 true false
    = Optimized.createCompositeTask idealEnv page1 5 true false.
Proof.
  apply (builders_saturate_above_last_stage idealEnv (baselineBatch [page1]) page1 9
           true false).
  lia.
Defined.

(** ** Any run of the optimized page loop *)

Section OptimizedAnyRun.
Context {Data : Type} (env : Env Data).

(** One iteration, whatever the factories and the task do: the page is
    attempted; either an assertion aborts the run, or the page is counted,
    or it is not counted and its failure is recorded. *)
Lemma optimized_processPage_any this total processed tick page :
  total ≠ 0 →
  ∃ log step,
    Optimized.processPage env this total processed tick page = (log, step)
    ∧ attempted log = [page]
    ∧ summaries log = []
    ∧ match step with
      | Optimized.Stop how => how = Aborts ∧ recordedFailures log = []
      | Optimized.Next processed' =>
          (processed' = processed + 1 ∧ recordedFailures log = [])
          ∨ (processed' = processed ∧ recordedFailures log = [page])
      end.
Proof.
  intros Htotal. unfold Optimized.processPage.
  destruct (progressUpdate_quiet (processed + 1) total (elapsed env tick) Htotal)
    as (items1 & Hp1 & Hq1).
  destruct (progressUpdate_quiet processed total (elapsed env tick) Htotal)
    as (items0 & Hp0 & Hq0).
  destruct (Optimized.createCompositeTask env page 5 true _) as [task | s].
  - destruct (runLoadFileTask env task) as [events result]. cbn zeta.
    destruct result; rewrite ?Hp1, ?Hp0; eexists _, _; (split; [reflexivity |]);
      quiet_rewrite; cbn beta iota; repeat split; try done;
      first [by left | by right].
  - eexists _, _. split; [reflexivity |]. done.
Qed.

(** The loop, whatever the factories and the tasks do. *)
Lemma optimized_processPages_any this total pages :
  total ≠ 0 →
  ∀ processed tick,
  ∃ log step,
    Optimized.processPages env this total processed tick pages = (log, step)
    ∧ summaries log = []
    ∧ match step with
      | Optimized.Stop how =>
          how = Aborts ∧ ∃ n, (n ≤ length pages)%nat ∧ attempted log = take n pages
      | Optimized.Next processed' =>
          attempted log = pages
          ∧ processed ≤ processed'
          ∧ processed' + Z.of_nat (length (recordedFailures log))
            = processed + Z.of_nat (length pages)
      end.
Proof.
  intros Htotal. induction pages as [| page rest IH]; intros processed tick.
  - exists [], (Optimized.Next processed). cbn. split_and!; try done; lia.
  - destruct (optimized_processPage_any this total processed tick page Htotal)
      as (log1 & step1 & Hstep & Ha1 & Hs1 & Hcase).
    cbn [Optimized.processPages]. rewrite Hstep.
    destruct step1 as [processed1 | how].
    + destruct (IH processed1 (S tick)) as (log2 & step2 & -> & Hs2 & Hrest).
      exists (log1 ++ log2), step2. split; [done |].
      autorewrite with log. rewrite Hs1, Hs2. split; [done |].
      destruct step2 as [processed2 | how2].
      * destruct Hrest as (Ha2 & Hle & Hsum). rewrite Ha1, Ha2.
        split; [done |]. rewrite length_app. cbn [length].
        destruct Hcase as [[-> ->] | [-> ->]]; cbn [length]; lia.
      * destruct Hrest as (-> & n & Hn & Ha2). split; [done |].
        exists (S n). rewrite Ha1, Ha2. cbn [length]. split; [lia | done].
    + destruct Hcase as [-> _]. exists log1, (Optimized.Stop Aborts).
      split_and!; try done. exists 1%nat. rewrite Ha1. cbn [length].
      split; [lia | done].
Qed.

(** What [process] does with an object whose pointers are set. *)
Lemma optimized_process_any this catalog :
  Optimized.m_ptrPages this = Some catalog →
  Optimized.m_ptrStages this = true →
  let pages := toPageSequence catalog IMAGE_VIEW in
  let total := Z.of_nat (length pages) in
  let run := Optimized.process env this in
  run = ([NoPages], Returns) ∧ pages = []
  ∨ (run.2 = Aborts ∧ summaries run.1 = []
     ∧ ∃ n, (n ≤ length pages)%nat ∧ attempted run.1 = take n pages)
  ∨ (∃ processed,
       0 ≤ processed ≤ total
       ∧ attempted run.1 = pages
       ∧ Z.of_nat (length (recordedFailures run.1)) = total - processed
       ∧ summaries run.1 = [(total, processed, total - processed)]
       ∧ run.2 = (if processed <? total
                  then Throws (StdException "Some pages failed to process")
                  else Returns)).
Proof.
  intros Hpages Hstages pages total. unfold Optimized.process.
  rewrite Hpages, Hstages. fold pages. fold total.
  destruct (total =? 0) eqn:Htotal.
  { apply Z.eqb_eq in Htotal. left. split; [done |].
    destruct pages; [done | cbn in total; lia]. }
  apply Z.eqb_neq in Htotal. right.
  destruct (optimized_processPages_any this total pages Htotal 0 0%nat)
    as (log & step & -> & Hs & Hcase).
  destruct step as [processed | how].
  - destruct Hcase as (Ha & Hle & Hsum). right. exists processed.
    destruct (averageTime_is_Some (elapsed env (length pages)) processed) as [avg ->].
    cbn [fst snd].
    match goal with
    | |- context [Starting ?t :: ?l ++ ?r] =>
        replace (Starting t :: l ++ r) with ([Starting t] ++ l ++ r) by done
    end.
    autorewrite with log. rewrite Ha, Hs. fold total in Hsum.
    split_and!; try done; lia.
  - destruct Hcase as (-> & n & Hn & Ha). left. cbn [fst snd].
    replace (Starting total :: log) with ([Starting total] ++ log) by done.
    autorewrite with log. rewrite Hs. split_and!; try done. by exists n.
Qed.

(** X5.  No exception raised by a task leaves the optimized [process]:
    whatever the factories, the loader and the stages do, the only
    exceptions it throws are its own two runtime errors. *)
Theorem optimized_task_exceptions_never_escape (this : Optimized.ConsoleBatch) (e : Exn) :
  (Optimized.process env this).2 = Throws e →
  e = StdException "Some pages failed to process"
  ∨ e = StdException "Project not properly initialized".
Proof.
  destruct (Optimized.m_ptrPages this) as [catalog |] eqn:Hpages.
  - destruct (Optimized.m_ptrStages this) eqn:Hstages.
    + destruct (optimized_process_any this catalog Hpages Hstages)
        as [[-> _] | [(-> & _) | (processed & _ & _ & _ & _ & ->)]]; [done | done |].
      destruct (_ <? _); [intros [= <-]; by left | done].
    + unfold Optimized.process. rewrite Hpages, Hstages. intros [= <-]. by right.
  - unfold Optimized.process. rewrite Hpages. intros [= <-]. by right.
Qed.

(** X6.  Whenever the optimized [process] writes a summary, its counts
    add up: the total is the size of the snapshot, the processed count
    lies between zero and the total, the failed count is their difference
    and equals the number of failures recorded in the run. *)
Theorem optimized_summary_counts_add_up (this : Optimized.ConsoleBatch)
    (total processed failed : Z) :
  summaryCounts (Optimized.process env this).1 = Some (total, processed, failed) →
  ∃ catalog,
    Optimized.m_ptrPages this = Some catalog
    ∧ total = Z.of_nat (length (toPageSequence catalog IMAGE_VIEW))
    ∧ 0 ≤ processed ≤ total
    ∧ failed = total - processed
    ∧ Z.of_nat (length (recordedFailures (Optimized.process env this).1)) = failed.
Proof.
  unfold summaryCounts.
  destruct (Optimized.m_ptrPages this) as [catalog |] eqn:Hpages.
  - destruct (Optimized.m_ptrStages this) eqn:Hstages.
    + destruct (optimized_process_any this catalog Hpages Hstages)
        as [[-> _] | [(_ & -> & _) | (p & Hp & _ & Hf & -> & _)]]; [done | done |].
      cbn. intros [= <- <- <-]. exists catalog. split_and!; try done; lia.
    + unfold Optimized.process. by rewrite Hpages, Hstages.
  - unfold Optimized.process. by rewrite Hpages.
Qed.

(** X7.  The pages the optimized [process] attempts are always an initial
    segment of its snapshot, and the whole snapshot unless a failed
    assertion aborts the run: neither a failed page nor an exception makes
    it skip a page. *)
Theorem optimized_attempts_all_unless_aborted (this : Optimized.ConsoleBatch)
    (catalog : ProjectPages) :
  Optimized.m_ptrPages this = Some catalog →
  Optimized.m_ptrStages this = true →
  let pages := toPageSequence catalog IMAGE_VIEW in
  (∃ n, attempted (Optimized.process env this).1 = take n pages)
  ∧ ((Optimized.process env this).2 ≠ Aborts →
     attempted (Optimized.process env this).1 = pages).
Proof.
  intros Hpages Hstages pages.
  destruct (optimized_process_any this catalog Hpages Hstages)
    as [[-> Hnil] | [(Hout & _ & n & _ & Ha) | (p & _ & Ha & _)]].
  - fold pages in Hnil. rewrite Hnil. split; [by exists 0%nat | done].
  - split; [by exists n | done].
  - fold pages in Ha. split; [| done].
    exists (length pages). by rewrite take_ge.
Qed.

(** X8.  An object the optimized project-file constructor returns has its
    page and stage pointers set: [process] never answers it with "Project
    not properly initialized"; the only exception it can throw is the
    failed-batch error. *)
Theorem optimized_constructed_object_is_initialised (initial_debug : bool)
    (project_file : ProjectFile) (this : Optimized.ConsoleBatch) (e : Exn) :
  Optimized.newConsoleBatch initial_debug project_file = Object this →
  (Optimized.process env this).2 = Throws e →
  e = StdException "Some pages failed to process".
Proof.
  intros Hnew. unfold Optimized.newConsoleBatch in Hnew.
  destruct project_file as [| | [catalog |] dir relinker]; try done.
  injection Hnew as <-.
  destruct (optimized_process_any
              (Optimized.mkConsoleBatch (Some catalog) true initial_debug dir)
              catalog eq_refl eq_refl)
    as [[-> _] | [(-> & _) | (processed & _ & _ & _ & _ & ->)]]; [done | done |].
  destruct (_ <? _); [by intros [= <-] | done].
Qed.
End OptimizedAnyRun.

Lemma optimized_task_exceptions_never_escape_witness :
  StdException "Some pages failed to process"
    = StdException "Some pages failed to process"
  ∨ StdException "Some pages failed to process"
    = StdException "Project not properly initialized".
Proof.
  apply (optimized_task_exceptions_never_escape throwingEnv
           (optimizedBatch false [page1; page2])).
  vm_compute. reflexivity.
Defined.

Lemma optimized_summary_counts_witness :
  ∃ catalog,
    Optimized.m_ptrPages (optimizedBatch false [page1; page2; page3]) = Some catalog
    ∧ 3 = Z.of_nat (length (toPageSequence catalog IMAGE_VIEW))
    ∧ 0 ≤ 2 ≤ 3
    ∧ 1 = 3 - 2
    ∧ Z.of_nat (length (recordedFailures
         (Optimized.process missingFileEnv
            (optimizedBatch false [page1; page2; page3])).1)) = 1.
Proof.
  apply (optimized_summary_counts_add_up missingFileEnv
           (optimizedBatch false [page1; page2; page3]) 3 2 1).
  vm_compute. reflexivity.
Defined.

Lemma optimized_attempts_all_witness :
  attempted (Optimized.process throwingEnv (optimizedBatch false [page1; page2])).1
  = [page1; page2].
Proof.
  apply (optimized_attempts_all_unless_aborted throwingEnv
           (optimizedBatch false [page1; page2]) (catalogOf [page1; page2])
           eq_refl eq_refl).
  vm_compute. discriminate.
Defined.

Lemma optimized_constructed_object_witness :
  StdException "Some pages failed to process"
  = StdException "Some pages failed to process".
Proof.
  apply (optimized_constructed_object_is_initialised throwingEnv false
           (Document (Some (catalogOf [page1; page2])) "out" (λ path, path))
           (optimizedBatch false [page1; page2])).
  - reflexivity.
  - vm_compute. reflexivity.
Defined.

(** ** Loading, saving and the accessors of the optimized unit *)

(** X9.  An object built by the optimized project-file constructor never
    has an output directory of its own: whatever the file names,
    [outputDirectory] is empty, [isProjectValid] is false, and saving the
    project hands the page catalog and an empty output directory to the
    writer. *)
Theorem constructed_project_has_no_output_directory (initial_debug : bool)
    (project_file : ProjectFile) (this : OptimizedProject.ConsoleBatch) :
  OptimizedProject.newConsoleBatch initial_debug project_file = Object this →
  OptimizedProject.outputDirectory this = ""
  ∧ OptimizedProject.isProjectValid this = false
  ∧ ∃ pages,
      Optimized.m_ptrPages (OptimizedProject.core this) = Some pages
      ∧ OptimizedProject.saveProject this true
        = (Returns, OptimizedProject.Written pages "").
Proof.
  unfold OptimizedProject.newConsoleBatch, Optimized.newConsoleBatch.
  destruct project_file as [| | [catalog |] dir relinker]; try done.
  intros [= <-]. split_and!; [done | | by exists catalog].
  unfold OptimizedProject.isProjectValid. cbn. done.
Qed.


Section FailedLoad.
Context {Data : Type} (env : Env Data).

(** X11.  A load that fails because the file cannot be opened or is not
    well-formed leaves the object as it was.  A load that fails for want
    of a page catalog leaves the object without pages, even if a project
    was loaded before: the page count is zero, the project is invalid,
    and [process] throws "Project not properly initialized" without
    attempting a page. *)
Theorem loadProject_failure (this : OptimizedProject.ConsoleBatch)
    (project_file : ProjectFile) (e : Exn) :
  (OptimizedProject.loadProject this project_file).1 = Throws e →
  let this' := (OptimizedProject.loadProject this project_file).2 in
  (e ≠ StdException "Failed to load project pages" → this' = this)
  ∧ (e = StdException "Failed to load project pages" →
     OptimizedProject.pageCount this' = 0
     ∧ OptimizedProject.isProjectValid this' = false
     ∧ Optimized.process env (OptimizedProject.core this')
       = ([], Throws (StdException "Project not properly initialized"))).
Proof.
  destruct project_file as [| | [catalog |] dir relinker]; cbn;
    intros [= <-]; split; done.
Qed.
End FailedLoad.

Lemma selectedPageIds_fold (p : PageId) (l : list PageInfo) (ids : gset PageId) :
  p ∈ foldl (λ ids page_info, {[ page_id page_info ]} ∪ ids) ids l
  ↔ p ∈ ids ∨ ∃ page_info, page_info ∈ l ∧ page_id page_info = p.
Proof.
  revert ids. induction l as [| page_info l IH]; intros ids; cbn.
  - split; [by left | intros [H | (q & Hq & _)]; [done |]].
    by apply not_elem_of_nil in Hq.
  - rewrite IH. rewrite elem_of_union, elem_of_singleton. split.
    + intros [[-> | H] | (q & Hq & Hp)].
      * right. exists page_info. split; [by left | done].
      * by left.
      * right. exists q. split; [by right | done].
    + intros [H | (q & Hq & Hp)].
      * left. by right.
      * apply elem_of_cons in Hq as [-> | Hq].
        -- left. left. done.
        -- right. by exists q.
Qed.

(** X12.  In console mode every page is selected: the accessor made by
    [newPageSelectionAccessor] returns the image snapshot of the catalog
    both as all pages and as the selected pages, its selected ids are
    exactly the ids of these pages, and without a catalog it selects
    nothing. *)
Theorem console_accessor_selects_every_page (this : OptimizedProject.ConsoleBatch)
    (p : PageId) :
  let accessor := OptimizedProject.newPageSelectionAccessor this in
  OptimizedProject.selectedPages accessor = OptimizedProject.allPages accessor
  ∧ OptimizedProject.allPages accessor
    = match Optimized.m_ptrPages (OptimizedProject.core this) with
      | Some pages => toPageSequence pages IMAGE_VIEW
      | None => []
      end
  ∧ (p ∈ OptimizedProject.selectedPageIds accessor
     ↔ ∃ page_info, page_info ∈ OptimizedProject.allPages accessor
                    ∧ page_id page_info = p).
Proof.
  cbn zeta. split_and!.
  - done.
  - unfold OptimizedProject.newPageSelectionAccessor.
    by destruct (Optimized.m_ptrPages _).
  - unfold OptimizedProject.selectedPageIds. rewrite selectedPageIds_fold.
    split; [intros [H | H]; [by apply not_elem_of_empty in H | done] | by right].
Qed.

Lemma constructed_project_witness :
  OptimizedProject.isProjectValid
    (OptimizedProject.mkConsoleBatch (optimizedBatch false [page1]) "") = false.
Proof.
  apply (constructed_project_has_no_output_directory false
           (Document (Some (catalogOf [page1])) "out" (λ path, path))
           (OptimizedProject.mkConsoleBatch (optimizedBatch false [page1]) "")).
  reflexivity.
Defined.

Lemma loadProject_failure_witness :
  OptimizedProject.pageCount
    (OptimizedProject.loadProject
       (OptimizedProject.mkConsoleBatch (optimizedBatch false [page1]) "out")
       (Document None "elsewhere" (λ path, path))).2 = 0.
Proof.
  apply (loadProject_failure idealEnv
           (OptimizedProject.mkConsoleBatch (optimizedBatch false [page1]) "out")
           (Document None "elsewhere" (λ path, path))
           (StdException "Failed to load project pages"));
    reflexivity.
Defined.

(** ** The baseline loop and a task that throws *)

Section BaselineThrow.
Context {Settings Data : Type} (env : Env Data).

Lemma baseline_processPages_until_throw (num_pages : Z) before page after e :
  (∀ q s, q ∈ before ++ [page] → creates env s (page_id q) = true) →
  (∀ q e', q ∈ before → (runPage env allStages q).2 ≠ Threw e') →
  (runPage env allStages page).2 = Threw e →
  ∀ (this : Baseline.ConsoleBatch Settings) i,
  ∃ log this',
    Baseline.processPages env this num_pages i (before ++ page :: after)
      = (log, Throws e, this')
    ∧ attempted log = before ++ [page]
    ∧ recordedFailures log = [].
Proof.
  intros Hc Hquiet Hthrow.
  induction before as [| q before IH]; intros this i.
  - destruct (baseline_full_task env this page) as (root & this' & Hbuild & Hrun).
    { intros s. apply Hc. cbn. by left. }
    cbn [app Baseline.processPages]. rewrite Hbuild, Hrun.
    destruct (runPage env allStages page) as [events result]. cbn in Hthrow. subst result.
    pose proof (announce_quiet env i num_pages page) as Hannounce.
    eexists _, this'. split; [reflexivity |].
    match goal with
    | |- context [Attempt page :: ?l ++ ?r] =>
        replace (Attempt page :: l ++ r) with ([Attempt page] ++ l ++ r) by done
    end.
    quiet_rewrite. done.
  - destruct (baseline_full_task env this q) as (root & this' & Hbuild & Hrun).
    { intros s. apply Hc. cbn. by left. }
    cbn [app Baseline.processPages]. rewrite Hbuild, Hrun.
    pose proof (runPage_rooted env allStages q) as Hrooted.
    pose proof (Hquiet q) as Hnothrow.
    destruct (runPage env allStages q) as [events result].
    cbn in Hrooted, Hnothrow.
    destruct IH with (this := this') (i := i + 1)
      as (log' & this'' & Hrest & Ha & Hf).
    { intros q' s Hq'. apply Hc. cbn. by right. }
    { intros q' e' Hq'. apply Hquiet. by right. }
    pose proof (announce_quiet env i num_pages q) as Hannounce.
    destruct result as [output | path | s reason | e' |];
      [| | | by destruct (Hnothrow e' (list_elem_of_here _ _)) | done];
      rewrite Hrest; eexists _, this''; (split; [reflexivity |]);
      match goal with
      | |- context [Attempt q :: ?l ++ ?r] =>
          replace (Attempt q :: l ++ r) with ([Attempt q] ++ l ++ r) by done
      end;
      quiet_rewrite; rewrite ?Ha, ?Hf; done.
Qed.

(** X13.  In the baseline [process], the first page whose task throws
    ends the run: the exception leaves [process], the pages before it and
    the page itself are the only ones attempted, the pages after it never
    are, and no failure is recorded. *)
Theorem baseline_first_throw_ends_run (this : Baseline.ConsoleBatch Settings)
    (before after : list PageInfo) (page : PageInfo) (e : Exn) :
  toPageSequence (Baseline.m_ptrPages this) PAGE_VIEW = before ++ page :: after →
  (∀ q s, q ∈ before ++ [page] → creates env s (page_id q) = true) →
  (∀ q e', q ∈ before → (runPage env allStages q).2 ≠ Threw e') →
  (runPage env allStages page).2 = Threw e →
  (Baseline.process env this).1.2 = Throws e
  ∧ attempted (Baseline.process env this).1.1 = before ++ [page]
  ∧ recordedFailures (Baseline.process env this).1.1 = [].
Proof.
  intros Hpages Hc Hquiet Hthrow. unfold Baseline.process. rewrite Hpages.
  destruct (baseline_processPages_until_throw
              (Z.of_nat (length (before ++ page :: after)))
              before page after e Hc Hquiet Hthrow this 0)
    as (log & this' & -> & Ha & Hf).
  done.
Qed.
End BaselineThrow.

Lemma baseline_first_throw_witness :
  (Baseline.process throwingEnv (baselineBatch [page2; page1; page3])).1.2
    = Throws (StdException "bad allocation")
  ∧ attempted (Baseline.process throwingEnv (baselineBatch [page2; page1; page3])).1.1
    = [page2; page1]
  ∧ recordedFailures
      (Baseline.process throwingEnv (baselineBatch [page2; page1; page3])).1.1 = [].
Proof.
  apply (baseline_first_throw_ends_run throwingEnv (baselineBatch [page2; page1; page3])
           [page2] [page3] page1 (StdException "bad allocation")).
  - reflexivity.
  - intros q s _. reflexivity.
  - intros q e' Hq. apply list_elem_of_singleton in Hq as ->. vm_compute. discriminate.
  - vm_compute. reflexivity.
Defined.

(** ** The timing of the optimized unit *)

(** X14.  With a non-negative elapsed time, at least one page in total,
    no more pages processed than there are, and a product of the elapsed
    time and the total that fits a [qint64] (so that the product the code
    computes does not overflow and is the one computed here), the
    remaining time the progress line reports is defined and not negative,
    the estimated total is at least the elapsed time and fits a [qint64],
    and once every page is processed the estimate is the elapsed time and
    nothing remains. *)
Theorem remaining_time_bounds (elapsed total processed : Z) :
  0 ≤ elapsed → 1 ≤ total → processed ≤ total →
  elapsed * total ≤ 9223372036854775807 →
  ∃ estimated remaining,
    Optimized.estimatedTotal elapsed total processed = Some estimated
    ∧ Optimized.remainingTime elapsed total processed = Some remaining
    ∧ remaining = estimated - elapsed
    ∧ elapsed ≤ estimated ≤ 9223372036854775807
    ∧ 0 ≤ remaining
    ∧ (processed = total → estimated = elapsed ∧ remaining = 0).
Proof.
  intros He Ht Hp Hfit.
  unfold Optimized.remainingTime, Optimized.estimatedTotal, checkedQuot.
  pose proof (divisor_positive processed) as Hd.
  assert (Hdt : Optimized.divisor processed ≤ total)
    by (unfold Optimized.divisor; lia).
  destruct (Optimized.divisor processed =? 0) eqn:Hz;
    [apply Z.eqb_eq in Hz; lia |].
  assert (Hlow : elapsed ≤ elapsed * total ÷ Optimized.divisor processed).
  { rewrite <- (Z.quot_mul elapsed (Optimized.divisor processed)) at 1 by lia.
    apply Z.quot_le_mono; [lia | nia]. }
  assert (Hhigh : elapsed * total ÷ Optimized.divisor processed ≤ elapsed * total).
  { rewrite <- (Z.quot_1_r (elapsed * total)) at 2.
    apply Z.quot_le_compat_l; [nia | lia]. }
  cbn. eexists _, _. split_and!; [reflexivity | reflexivity | reflexivity | | | |].
  - exact Hlow.
  - lia.
  - lia.
  - intros ->. assert (Optimized.divisor total = total) as ->
      by (unfold Optimized.divisor; lia).
    rewrite Z.quot_mul by lia. lia.
Qed.

Lemma remaining_time_bounds_witness :
  ∃ estimated remaining,
    Optimized.estimatedTotal 3000 4 2 = Some estimated
    ∧ Optimized.remainingTime 3000 4 2 = Some remaining
    ∧ remaining = estimated - 3000
    ∧ 3000 ≤ estimated ≤ 9223372036854775807
    ∧ 0 ≤ remaining
    ∧ (2 = 4 → estimated = 3000 ∧ remaining = 0).
Proof. apply (remaining_time_bounds 3000 4 2); lia. Defined.

(** ** The page numbers the optimized unit announces *)

Lemma announcedIndexes_app l1 l2 :
  announcedIndexes (l1 ++ l2) = announcedIndexes l1 ++ announcedIndexes l2.
Proof. apply omap_app. Qed.

Lemma announcedIndexes_Ran events : announcedIndexes (Ran <$> events) = [].
Proof. by induction events. Qed.

Lemma progressUpdate_announces_nothing processed total elapsed items :
  Optimized.progressUpdate processed total elapsed = Some items →
  announcedIndexes items = [].
Proof.
  unfold Optimized.progressUpdate. destruct (_ || _); [| by intros [= <-]].
  destruct (checkedDiv _ _); [| done]. cbn.
  destruct (Optimized.remainingTime _ _ _); [| done]. cbn. by intros [= <-].
Qed.

Section Announcements.
Context {Data : Type} (env : Env Data).

(** Every iteration announces one more than the pages processed so far. *)
Lemma optimized_processPage_announces this total processed tick page :
  announcedIndexes (Optimized.processPage env this total processed tick page).1
  = [processed + 1].
Proof.
  unfold Optimized.processPage.
  destruct (Optimized.createCompositeTask env page 5 true _) as [task | s]; [| done].
  destruct (runLoadFileTask env task) as [events result]. cbn zeta.
  pose proof (progressUpdate_announces_nothing (processed + 1) total (elapsed env tick)) as H1.
  pose proof (progressUpdate_announces_nothing processed total (elapsed env tick)) as H0.
  destruct (Optimized.progressUpdate (processed + 1) total (elapsed env tick)) as [items1 |];
    destruct (Optimized.progressUpdate processed total (elapsed env tick)) as [items0 |];
    destruct result; cbn [fst];
    repeat rewrite announcedIndexes_app; rewrite ?announcedIndexes_Ran;
    rewrite ?(H1 _ eq_refl), ?(H0 _ eq_refl); done.
Qed.

Abbreviation succeeding this pages :=
  (filter (λ page, Optimized.pageSucceeds env this page) pages).

Lemma optimized_processPages_announces this total pages :
  total ≠ 0 →
  (∀ page s, page ∈ pages → creates env s (page_id page) = true) →
  ∀ processed tick,
    announcedIndexes (Optimized.processPages env this total processed tick pages).1
    = (λ i, processed + 1 + Z.of_nat (length (succeeding this (take i pages))))
      <$> seq 0 (length pages).
Proof.
  intros Htotal. induction pages as [| page rest IH]; intros Hc processed tick; [done |].
  pose proof (optimized_processPage_announces this total processed tick page) as Hfirst.
  destruct (optimized_processPage env this total processed tick page Htotal)
    as (log1 & Hstep & _).
  { intros s. apply Hc. by left. }
  cbn [Optimized.processPages]. rewrite Hstep in Hfirst |- *. cbn [fst] in Hfirst.
  specialize (IH (λ page' s H, Hc page' s (list_elem_of_further _ _ _ H))
                (processed + (if Optimized.pageSucceeds env this page then 1 else 0))
                (S tick)).
  destruct (Optimized.processPages env this total _ (S tick) rest) as [log2 step].
  cbn [fst] in IH |- *. rewrite announcedIndexes_app, Hfirst, IH.
  cbn [length seq fmap list_fmap take]. rewrite filter_nil. cbn [length app].
  f_equal; [lia |].
  rewrite <- fmap_S_seq, <- list_fmap_compose. apply list_fmap_ext.
  intros _ i _. cbn [compose take].
  destruct (Optimized.pageSucceeds env this page) eqn:Hok.
  - rewrite (filter_cons_True _ page) by (rewrite Hok; cbn; tauto). cbn [length]. lia.
  - rewrite (filter_cons_False _ page) by (rewrite Hok; cbn; tauto). lia.
Qed.

(** X15.  The number the optimized [process] writes in a page's
    "Processing page i/n" line is one more than the number of pages before
    it that succeeded, not the page's position: when every page before it
    succeeded it is the position, and after each failed page the count
    falls behind by one. *)
Theorem optimized_announced_number_counts_successes (this : Optimized.ConsoleBatch)
    (catalog : ProjectPages) (i : nat) (page : PageInfo) :
  Optimized.m_ptrPages this = Some catalog →
  Optimized.m_ptrStages this = true →
  (∀ page s, page ∈ toPageSequence catalog IMAGE_VIEW →
             creates env s (page_id page) = true) →
  toPageSequence catalog IMAGE_VIEW !! i = Some page →
  announcedIndexes (Optimized.process env this).1 !! i
  = Some (1 + Z.of_nat (length (succeeding this
                                  (take i (toPageSequence catalog IMAGE_VIEW))))).
Proof.
  intros Hpages Hstages Hc Hi. unfold Optimized.process. rewrite Hpages, Hstages.
  set (pages := toPageSequence catalog IMAGE_VIEW) in *.
  pose proof (lookup_lt_Some _ _ _ Hi) as Hlt.
  destruct (Z.of_nat (length pages) =? 0) eqn:Htotal;
    [apply Z.eqb_eq in Htotal; lia |].
  apply Z.eqb_neq in Htotal.
  pose proof (optimized_processPages_announces this _ pages Htotal Hc 0 0%nat) as Hann.
  destruct (optimized_processPages env this _ pages Htotal Hc 0 0%nat)
    as (log & Hrun & _).
  rewrite Hrun in Hann |- *. cbn [fst] in Hann.
  destruct (averageTime_is_Some (elapsed env (length pages))
              (0 + Z.of_nat (length (succeeding this pages)))) as [avg ->].
  cbn [fst].
  match goal with
  | |- context [Starting ?t :: ?l ++ ?r] =>
      replace (Starting t :: l ++ r) with ([Starting t] ++ l ++ r) by done
  end.
  rewrite !announcedIndexes_app, Hann.
  assert (∀ t, announcedIndexes [Starting t] = []) as -> by done.
  assert (∀ t p f tt a, announcedIndexes [Summary t p f tt a] = []) as -> by done.
  rewrite app_nil_l, app_nil_r, list_lookup_fmap, lookup_seq_lt by done.
  done.
Qed.
End Announcements.

Lemma optimized_announced_number_witness :
  announcedIndexes
    (Optimized.process missingFileEnv (optimizedBatch false [page1; page2; page3])).1
    !! 2%nat
  = Some 2.
Proof.
  rewrite (optimized_announced_number_counts_successes missingFileEnv
             (optimizedBatch false [page1; page2; page3])
             (catalogOf [page1; page2; page3]) 2 page3 eq_refl eq_refl);
    [reflexivity | intros; reflexivity | reflexivity].
Defined.

(** ** The filter setup functions of the baseline unit *)

Lemma foldl_unchanged {A B : Type} (l : list B) (a : A) : foldl (λ a _, a) a l = a.
Proof. by induction l. Qed.

Section SetupProperties.
Context {V : Setup.Values} {S : Type}.
Context (api : Setup.SettingsApi V S) (cli : Setup.CommandLine V).

(** X16.  [setupFilter] configures a stage only for the six stage
    indices: for any other index it leaves the settings as they are. *)
Theorem setupFilter_outside_stages (idx : Z) (allPages : list PageId) (settings : S) :
  idx < 0 ∨ 5 < idx →
  Setup.setupFilter api cli idx allPages settings = settings.
Proof.
  intros Hidx. unfold Setup.setupFilter.
  unfold fixOrientationFilterIdx, pageSplitFilterIdx, deskewFilterIdx,
    selectContentFilterIdx, pageLayoutFilterIdx, outputFilterIdx.
  repeat match goal with
  | |- context [idx =? ?c] =>
      let H := fresh in destruct (idx =? c) eqn:H; [apply Z.eqb_eq in H; lia |]
  end.
  done.
Qed.

(** X17.  Without their option on the command line the page-split, the
    select-content and the page-layout setup leave the settings of every
    page as they are, whatever the set of pages. *)
Theorem setup_without_option_changes_nothing (allPages : list PageId) (settings : S) :
  (Setup.cliLayout cli = None →
   Setup.setupPageSplit api cli allPages settings = settings)
  ∧ (Setup.cliContentRect cli = None →
     Setup.setupSelectContent api cli allPages settings = settings)
  ∧ (Setup.cliMargins cli = None →
     Setup.setupPageLayout api cli allPages settings = settings).
Proof.
  split_and!; intros Hnone.
  - unfold Setup.setupPageSplit. by rewrite Hnone.
  - unfold Setup.setupSelectContent. rewrite Hnone. apply foldl_unchanged.
  - unfold Setup.setupPageLayout. rewrite Hnone. apply foldl_unchanged.
Qed.

(** The parameters a page has after [setupOutput], for settings in which
    [getParams] returns what [setParams] stored for the page and is not
    affected by what is stored for another page. *)
Lemma setupOutput_getParams (allPages : list PageId) :
  (∀ p params settings,
     Setup.getParams api p (Setup.setParams api p params settings) = params) →
  (∀ p q params settings, p ≠ q →
     Setup.getParams api q (Setup.setParams api p params settings)
     = Setup.getParams api q settings) →
  NoDup allPages →
  ∀ settings q,
    Setup.getParams api q (Setup.setupOutput api cli allPages settings)
    = if decide (q ∈ allPages)
      then Setup.overrideParams cli (Setup.getParams api q settings)
      else Setup.getParams api q settings.
Proof.
  intros Hsame Hother Hnodup. unfold Setup.setupOutput.
  induction Hnodup as [| p rest Hfresh Hnodup IH]; intros settings q; cbn [foldl].
  - by rewrite decide_False by apply not_elem_of_nil.
  - rewrite IH. destruct (decide (q = p)) as [-> | Hne].
    + rewrite decide_False by done. rewrite decide_True by (by left).
      by rewrite Hsame.
    + rewrite Hother by done.
      destruct (decide (q ∈ rest)) as [Hin | Hout].
      * rewrite decide_True by (by right). done.
      * rewrite decide_False; [done |]. by intros [? | ?]%elem_of_cons.
Qed.

(** X18.  After [setupOutput], every page of the set has the parameters
    it had before with the overrides of the command line applied once, and
    every other page has the parameters it had before (for settings in
    which [getParams] returns what [setParams] stored for the page and
    pages do not share records). *)
Theorem setupOutput_overrides_each_page (allPages : list PageId) (settings : S)
    (q : PageId) :
  (∀ p params settings,
     Setup.getParams api p (Setup.setParams api p params settings) = params) →
  (∀ p q params settings, p ≠ q →
     Setup.getParams api q (Setup.setParams api p params settings)
     = Setup.getParams api q settings) →
  NoDup allPages →
  Setup.getParams api q (Setup.setupOutput api cli allPages settings)
  = if decide (q ∈ allPages)
    then Setup.overrideParams cli (Setup.getParams api q settings)
    else Setup.getParams api q settings.
Proof. intros Hsame Hother Hnodup. by apply setupOutput_getParams. Qed.

Lemma overrideParams_without_options (params : Setup.Params V) :
  Setup.cliOutputDpi cli = None → Setup.cliColorMode cli = None →
  Setup.cliWhiteMargins cli = None → Setup.cliNormalizeIllumination cli = None →
  Setup.cliThreshold cli = None → Setup.cliDespeckleLevel cli = None →
  Setup.cliDepthPerception cli = None → Setup.cliDewarpingOptions cli = None →
  Setup.overrideParams cli params = params.
Proof.
  intros H1 H2 H3 H4 H5 H6 H7 H8. unfold Setup.overrideParams.
  by rewrite H1, H2, H3, H4, H5, H6, H7, H8.
Qed.

(** X19.  The picture shape and the splitting options of the command line
    take effect only together with the colour mode MIXED: when the command
    line gives no colour mode, or one that is not MIXED, [setupOutput]'s
    overrides leave the splitting options of the parameters as they
    were; with MIXED and a picture shape, the output is split and the
    shape set before the splitting options of the command line apply. *)
Theorem splitting_options_need_mixed_mode (params : Setup.Params V) :
  ((∀ mode, Setup.cliColorMode cli = Some mode → Setup.isMixed V mode = false) →
   Setup.splittingOptions (Setup.overrideParams cli params)
   = Setup.splittingOptions params)
  ∧ (∀ mode shape,
       Setup.cliColorMode cli = Some mode → Setup.isMixed V mode = true →
       Setup.cliPictureShape cli = Some shape →
       Setup.splittingOptions (Setup.overrideParams cli params)
       = default id (Setup.cliSplittingOptions cli)
           (Setup.setPictureShape V shape
              (Setup.setSplitOutput V true (Setup.splittingOptions params)))).
Proof.
  split.
  - intros Hmode. unfold Setup.overrideParams.
    destruct (Setup.cliColorMode cli) as [mode |].
    + rewrite (Hmode mode eq_refl).
      by repeat (match goal with |- context [match ?o with _ => _ end] => destruct o end).
    + by repeat (match goal with |- context [match ?o with _ => _ end] => destruct o end).
  - intros mode shape Hmode Hmixed Hshape. unfold Setup.overrideParams.
    rewrite Hmode, Hmixed, Hshape.
    by repeat (match goal with |- context [match ?o with _ => _ end] => destruct o end).
Qed.

(** X20.  With no output option on the command line, [setupOutput]
    writes every page's parameters back as it read them: afterwards
    [getParams] returns for every page what it returned before (for
    settings as in X18). *)
Theorem setupOutput_without_options_keeps_params (allPages : list PageId)
    (settings : S) (q : PageId) :
  (∀ p params settings,
     Setup.getParams api p (Setup.setParams api p params settings) = params) →
  (∀ p q params settings, p ≠ q →
     Setup.getParams api q (Setup.setParams api p params settings)
     = Setup.getParams api q settings) →
  NoDup allPages →
  Setup.cliOutputDpi cli = None → Setup.cliColorMode cli = None →
  Setup.cliWhiteMargins cli = None → Setup.cliNormalizeIllumination cli = None →
  Setup.cliThreshold cli = None → Setup.cliDespeckleLevel cli = None →
  Setup.cliDepthPerception cli = None → Setup.cliDewarpingOptions cli = None →
  Setup.getParams api q (Setup.setupOutput api cli allPages settings)
  = Setup.getParams api q settings.
Proof.
  intros Hsame Hother Hnodup H1 H2 H3 H4 H5 H6 H7 H8.
  rewrite setupOutput_getParams by done.
  destruct (decide (q ∈ allPages)); [| done].
  by apply overrideParams_without_options.
Qed.
End SetupProperties.

Lemma outputOnlyApi_get_set p params settings :
  Setup.getParams Setup.outputOnlyApi p (Setup.setParams Setup.outputOnlyApi p params settings)
  = params.
Proof. cbn. by rewrite lookup_insert_eq. Qed.

Lemma outputOnlyApi_get_set_other p q params settings :
  p ≠ q →
  Setup.getParams Setup.outputOnlyApi q (Setup.setParams Setup.outputOnlyApi p params settings)
  = Setup.getParams Setup.outputOnlyApi q settings.
Proof. intros Hne. cbn. by rewrite lookup_insert_ne. Qed.

Lemma page1_page2_distinct : NoDup [page_id page1; page_id page2].
Proof.
  apply NoDup_cons. split; [| apply NoDup_singleton].
  intros H%list_elem_of_singleton. vm_compute in H. discriminate H.
Qed.

Lemma setupFilter_outside_stages_witness :
  Setup.setupFilter Setup.outputOnlyApi Setup.dpiAndShape 6 [page_id page1] ∅ = ∅.
Proof.
  apply (setupFilter_outside_stages Setup.outputOnlyApi Setup.dpiAndShape 6
           [page_id page1] ∅).
  right. lia.
Defined.

Lemma setup_without_option_witness :
  Setup.setupPageSplit Setup.outputOnlyApi Setup.noOptions [page_id page1] ∅ = ∅
  ∧ Setup.setupSelectContent Setup.outputOnlyApi Setup.noOptions [page_id page1] ∅ = ∅
  ∧ Setup.setupPageLayout Setup.outputOnlyApi Setup.noOptions [page_id page1] ∅ = ∅.
Proof.
  destruct (setup_without_option_changes_nothing Setup.outputOnlyApi Setup.noOptions
              [page_id page1] ∅) as (H1 & H2 & H3).
  split_and!; [apply H1 | apply H2 | apply H3]; reflexivity.
Defined.

Lemma setupOutput_overrides_witness :
  Setup.outputDpi
    (Setup.getParams Setup.outputOnlyApi (page_id page2)
       (Setup.setupOutput Setup.outputOnlyApi Setup.dpiAndShape
          [page_id page1; page_id page2] ∅)) = 300.
Proof.
  rewrite (setupOutput_overrides_each_page Setup.outputOnlyApi Setup.dpiAndShape
             [page_id page1; page_id page2] ∅ (page_id page2)
             outputOnlyApi_get_set outputOnlyApi_get_set_other page1_page2_distinct).
  reflexivity.
Defined.

Lemma splitting_options_witness :
  Setup.splittingOptions (Setup.overrideParams Setup.dpiAndShape Setup.plainParams)
  = Setup.splittingOptions Setup.plainParams.
Proof.
  apply (splitting_options_need_mixed_mode Setup.dpiAndShape Setup.plainParams).
  intros mode Hmode. discriminate Hmode.
Defined.

Lemma setupOutput_without_options_witness :
  Setup.getParams Setup.outputOnlyApi (page_id page1)
    (Setup.setupOutput Setup.outputOnlyApi Setup.noOptions
       [page_id page1; page_id page2] ∅)
  = Setup.getParams Setup.outputOnlyApi (page_id page1) ∅.
Proof.
  apply (setupOutput_without_options_keeps_params Setup.outputOnlyApi Setup.noOptions
           [page_id page1; page_id page2] ∅ (page_id page1)
           outputOnlyApi_get_set outputOnlyApi_get_set_other page1_page2_distinct);
    reflexivity.
Defined.

(** ** The baseline unit: announcements and debug flags *)

Section BaselineAnnouncements.
Context {Settings Data : Type} (env : Env Data).

Lemma baseline_processPages_announces (num_pages : Z) pages :
  (∀ page s, page ∈ pages → creates env s (page_id page) = true) →
  (∀ page e, page ∈ pages → (runPage env allStages page).2 ≠ Threw e) →
  ∀ (this : Baseline.ConsoleBatch Settings) i,
    announcedIndexes (Baseline.processPages env this num_pages i pages).1.1
    = if isVerbose env
      then (λ j, i + 1 + Z.of_nat j) <$> seq 0 (length pages)
      else [].
Proof.
  induction pages as [| page rest IH]; intros Hc Hquiet this i.
  - cbn. by destruct (isVerbose env).
  - destruct (baseline_full_task env this page) as (root & this' & Hbuild & Hrun).
    { intros s. apply Hc. by left. }
    cbn [Baseline.processPages]. rewrite Hbuild, Hrun.
    pose proof (runPage_rooted env allStages page) as Hrooted.
    pose proof (Hquiet page) as Hnothrow.
    destruct (runPage env allStages page) as [events result].
    cbn in Hrooted, Hnothrow.
    specialize (IH (λ page' s H, Hc page' s (list_elem_of_further _ _ _ H))
                  (λ page' e H, Hquiet page' e (list_elem_of_further _ _ _ H))
                  this' (i + 1)).
    destruct (Baseline.processPages env this' num_pages (i + 1) rest)
      as [[log' outcome] this''].
    cbn [fst] in IH.
    destruct result as [output | path | s reason | e |];
      [| | | by destruct (Hnothrow e (list_elem_of_here _ _)) | done];
      cbn [fst];
      match goal with
      | |- context [Attempt page :: ?l ++ ?r] =>
          replace (Attempt page :: l ++ r) with ([Attempt page] ++ l ++ r) by done
      end;
      rewrite !announcedIndexes_app, announcedIndexes_Ran, IH;
      (destruct (isVerbose env); [| done]);
      cbn [length seq fmap list_fmap];
      change (announcedIndexes [Attempt page]) with (@nil Z);
      change (announcedIndexes [Announce (i + 1) num_pages
                                  (filePath (imageId (page_id page)))])
        with [i + 1];
      cbn [app]; rewrite Z.add_0_r; apply (f_equal (cons (i + 1)));
      rewrite <- fmap_S_seq, <- list_fmap_compose; apply list_fmap_ext;
      intros _ j _; cbn [compose]; lia.
Qed.

(** X21.  When no task throws, the baseline [process] announces every
    page with its position in the snapshot, 1 to n, if the command line
    is verbose, and announces nothing otherwise. *)
Theorem baseline_announces_positions (this : Baseline.ConsoleBatch Settings) :
  let pages := toPageSequence (Baseline.m_ptrPages this) PAGE_VIEW in
  (∀ page s, page ∈ pages → creates env s (page_id page) = true) →
  (∀ page e, page ∈ pages → (runPage env allStages page).2 ≠ Threw e) →
  announcedIndexes (Baseline.process env this).1.1
  = if isVerbose env
    then (λ j, Z.of_nat j + 1) <$> seq 0 (length pages)
    else [].
Proof.
  intros pages Hc Hquiet. unfold Baseline.process. fold pages.
  rewrite (baseline_processPages_announces _ pages Hc Hquiet).
  destruct (isVerbose env); [| done].
  apply list_fmap_ext. intros _ j _. lia.
Qed.

(** X22.  An object the baseline project-file constructor returns is in
    batch mode: whatever its [debug] member says, no unit of work of a
    chain it builds receives [debugFlag = true]. *)
Theorem baseline_constructed_object_passes_no_debug_flag (project_file : ProjectFile)
    (this : Baseline.ConsoleBatch Settings) (page : PageInfo) (k : nat) :
  Baseline.newConsoleBatch project_file = Object this →
  (k ≤ 5)%nat →
  (∀ s, creates env s (page_id page) = true) →
  ∃ root,
    (Baseline.createCompositeTask env this page (Z.of_nat k)).1
      = Pass (mkLoadFileTask BATCH page (Some root))
    ∧ ∀ s d, (s, d) ∈ chainDebugFlags root → d ≠ Some true.
Proof.
  intros Hnew Hk Hc.
  assert (Hbatch : Baseline.batch this = true).
  { unfold Baseline.newConsoleBatch in Hnew.
    destruct project_file as [| | pages dir relinker]; try done.
    destruct (isEmpty dir); [done |]. destruct pages; [| done].
    by injection Hnew as <-. }
  destruct (baseline_debug_flags env this page k Hk Hc) as (root & Hbuild & Hflags).
  exists root. split; [done |]. intros s d Hin. rewrite Hflags in Hin.
  apply list_elem_of_fmap in Hin as (s' & [= -> ->] & _).
  by apply baseline_batch_no_debug.
Qed.
End BaselineAnnouncements.

Lemma baseline_announces_positions_witness :
  announcedIndexes (Baseline.process idealEnv (baselineBatch [page1; page2; page3])).1.1
  = [1; 2; 3].
Proof.
  rewrite (baseline_announces_positions idealEnv (baselineBatch [page1; page2; page3])).
  - reflexivity.
  - intros; reflexivity.
  - intros page e _. vm_compute. discriminate.
Defined.

Lemma baseline_constructed_object_witness :
  ∃ root,
    (Baseline.createCompositeTask idealEnv (baselineBatch [page1]) page1 5).1
      = Pass (mkLoadFileTask BATCH page1 (Some root))
    ∧ ∀ s d, (s, d) ∈ chainDebugFlags root → d ≠ Some true.
Proof.
  apply (baseline_constructed_object_passes_no_debug_flag idealEnv
           (Document (Some (catalogOf [page1])) "out" (λ path, path))
           (baselineBatch [page1]) page1 5).
  - reflexivity.
  - lia.
  - reflexivity.
Defined.
